(** * go-wintask: the SCHTASKS argument builder and its invocations

    A shallow embedding of [tasker.go].  Go strings are byte sequences and
    are modelled by [string] (a list of 8-bit characters); [[]string] is
    [list string].  The process effects of the package (running the external
    binary, printing in debug mode, [log.Fatal], run-time panics) are made
    explicit by a small trace-and-outcome monad. *)

From Stdlib Require Import String Ascii List Bool Arith NArith ZArith Lia.
Import ListNotations.
Open Scope string_scope.

(** ** The functions of Go's [strings] package used by the code *)

Module strings.

Fixpoint rev (s : string) : string :=
  match s with
  | EmptyString => EmptyString
  | String c r => rev r ++ String c EmptyString
  end.

(** [unicode.IsSpace] on the one-byte runes: tab, line feed, vertical tab,
    form feed, carriage return and space. *)
Definition asciiSpace (c : ascii) : bool :=
  let n := N_of_ascii c in
  ((9 <=? n) && (n <=? 13) || (n =? 32))%N.

(** The two-byte UTF-8 encodings of white space: U+0085 and U+00A0. *)
Definition space2 (b1 b2 : ascii) : bool :=
  ((N_of_ascii b1 =? 194) &&
   ((N_of_ascii b2 =? 133) || (N_of_ascii b2 =? 160)))%N.

(** The three-byte UTF-8 encodings of white space: U+1680, U+2000 to
    U+200A, U+2028, U+2029, U+202F, U+205F and U+3000. *)
Definition space3 (b1 b2 b3 : ascii) : bool :=
  let n1 := N_of_ascii b1 in
  let n2 := N_of_ascii b2 in
  let n3 := N_of_ascii b3 in
  ((n1 =? 225) && (n2 =? 154) && (n3 =? 128)
   || (n1 =? 226) && (n2 =? 128) &&
      ((128 <=? n3) && (n3 <=? 138) || (n3 =? 168) || (n3 =? 169) || (n3 =? 175))
   || (n1 =? 226) && (n2 =? 129) && (n3 =? 159)
   || (n1 =? 227) && (n2 =? 128) && (n3 =? 128))%N.

(** Removes encoded white-space runes from the front, one rune at a time.
    [sp2] and [sp3] recognise the two- and three-byte encodings in the
    order in which the bytes are met. *)
Fixpoint trimFront (sp2 : ascii -> ascii -> bool)
         (sp3 : ascii -> ascii -> ascii -> bool) (s : string) : string :=
  match s with
  | EmptyString => EmptyString
  | String b1 r1 =>
      if asciiSpace b1 then trimFront sp2 sp3 r1
      else match r1 with
           | EmptyString => s
           | String b2 r2 =>
               if sp2 b1 b2 then trimFront sp2 sp3 r2
               else match r2 with
                    | EmptyString => s
                    | String b3 r3 =>
                        if sp3 b1 b2 b3 then trimFront sp2 sp3 r3 else s
                    end
           end
  end.

(** [strings.TrimLeftFunc(s, unicode.IsSpace)]. *)
Definition TrimLeft (s : string) : string := trimFront space2 space3 s.

(** Trimming of a reversed string: the encodings are met last byte
    first. *)
Definition trimBack : string -> string :=
  trimFront (fun b2 b1 => space2 b1 b2) (fun b3 b2 b1 => space3 b1 b2 b3).

(** [strings.TrimRightFunc(s, unicode.IsSpace)]: the runes are decoded
    from the end. *)
Definition TrimRight (s : string) : string := rev (trimBack (rev s)).

(** [strings.TrimSpace]: all leading and trailing Unicode white space is
    removed (the ASCII fast path of the library gives the same result). *)
Definition TrimSpace (s : string) : string := TrimRight (TrimLeft s).

Definition HasPrefix (s pre : string) : bool := String.prefix pre s.

Definition HasSuffix (s suffix : string) : bool :=
  String.prefix (rev suffix) (rev s).

(** [strings.TrimSuffix]: one occurrence of [suffix] is cut from the end. *)
Definition TrimSuffix (s suffix : string) : string :=
  if HasSuffix s suffix
  then String.substring 0 (String.length s - String.length suffix) s
  else s.

(** [strings.IndexRune(s, r)] for a rune [r] below [utf8.RuneSelf]: the
    index of the first byte equal to [r], or -1. *)
Fixpoint IndexRune (s : string) (r : ascii) : Z :=
  match s with
  | EmptyString => (-1)%Z
  | String c s' =>
      if Ascii.eqb c r then 0%Z
      else let i := IndexRune s' r in
           if (i <? 0)%Z then (-1)%Z else (i + 1)%Z
  end.

(** [strings.Replace(s, old, "", -1)] for a one-byte [old]: every
    occurrence of the byte is removed. *)
Fixpoint RemoveAll (s : string) (old : ascii) : string :=
  match s with
  | EmptyString => EmptyString
  | String c s' =>
      if Ascii.eqb c old then RemoveAll s' old
      else String c (RemoveAll s' old)
  end.

(** [strings.Split(s, sep)] for a one-byte [sep]: the pieces between the
    separators; never the empty list. *)
Fixpoint Split (s : string) (sep : ascii) : list string :=
  match s with
  | EmptyString => [EmptyString]
  | String c s' =>
      if Ascii.eqb c sep then EmptyString :: Split s' sep
      else match Split s' sep with
           | piece :: pieces => String c piece :: pieces
           | [] => [String c EmptyString]
           end
  end.

(** [strings.Contains(s, substr)]. *)
Fixpoint Contains (s substr : string) : bool :=
  String.prefix substr s ||
  match s with
  | EmptyString => false
  | String _ s' => Contains s' substr
  end.

End strings.

(** ** [bufio.Scanner] with the default [ScanLines] split function *)

Module bufio.

(** [bufio.MaxScanTokenSize]: a line that does not end within this many
    bytes stops the scanner ([ErrTooLong]). *)
Definition MaxScanTokenSize : N := 65536.

Definition tooLong (line : string) : bool :=
  (MaxScanTokenSize <=? N.of_nat (String.length line))%N.

(** [dropCR]: one trailing carriage return is dropped. *)
Definition dropCR (line : string) : string :=
  strings.TrimSuffix line (String "013" EmptyString).

(** The tokens delivered by successive [Scan] calls over the pieces of the
    input between line feeds; the last piece is the unterminated rest of
    the input and is delivered only when it is not empty. *)
Fixpoint tokens (pieces : list string) : list string :=
  match pieces with
  | [] => []
  | [rest] =>
      if String.eqb rest "" then []
      else if tooLong rest then [] else [dropCR rest]
  | line :: more =>
      if tooLong line then [] else dropCR line :: tokens more
  end.

(** Every [scanner.Text()] seen by a [for scanner.Scan()] loop over
    [bytes.NewReader(output)]. *)
Definition ScanLines (output : string) : list string :=
  tokens (strings.Split output "010").

End bufio.

(** ** [path.Split] *)

Module path.

(** [path.Split]: the path is cut immediately after its final slash; the
    pair is the directory part and the file part. *)
Fixpoint Split (p : string) : string * string :=
  match p with
  | EmptyString => (EmptyString, EmptyString)
  | String c p' =>
      let (dir, file) := Split p' in
      if Ascii.eqb c "/" then (String c dir, file)
      else if String.eqb dir "" then (EmptyString, String c file)
      else (String c dir, file)
  end.

End path.

(** ** Effects: events, outcomes and the monad of the package's functions *)

(** A Go [error] value: [None] is [nil], [Some msg] an error with text. *)
Definition error : Type := option string.

Inductive Event : Type :=
| Exec (bin : string) (args : list string)
    (** [exec.Command(bin, args...).CombinedOutput()]: one run of the
        external binary *)
| Println (label : string) (cmds : list string)
    (** [fmt.Println(label, cmds)] *).

Inductive Outcome (A : Type) : Type :=
| Returns (a : A)      (** the function returns [a] *)
| Fatal (msg : string) (** [log.Fatal(msg)]: the process exits *)
| Panics               (** run-time panic: index out of range *).

Arguments Returns {A} a.
Arguments Fatal {A} msg.
Arguments Panics {A}.

(** A computation: the events it performs, in order, and how it ends. *)
Definition M (A : Type) : Type := list Event * Outcome A.

Definition ret {A} (a : A) : M A := ([], Returns a).

Definition bind {A B} (m : M A) (k : A -> M B) : M B :=
  match m with
  | (t, Returns a) => let (t', o) := k a in ((t ++ t')%list, o)
  | (t, Fatal msg) => (t, Fatal msg)
  | (t, Panics) => (t, Panics)
  end.

Notation "x <- c ;; k" := (bind c (fun x => k))
  (at level 61, c at next level, right associativity).
Notation "' pat <- c ;; k" := (bind c (fun x => match x with pat => k end))
  (at level 61, pat pattern, c at next level, right associativity).

Definition trace {A} (m : M A) : list Event := fst m.
Definition outcome {A} (m : M A) : Outcome A := snd m.

Definition fatal {A} (msg : string) : M A := ([], Fatal msg).
Definition panic {A} : M A := ([], Panics).
Definition println (label : string) (cmds : list string) : M unit :=
  ([Println label cmds], Returns tt).

Definition isExec (e : Event) : bool :=
  match e with Exec _ _ => true | Println _ _ => false end.

(** How often the external binary is run by a computation. *)
Definition invocations {A} (m : M A) : nat :=
  List.length (filter isExec (trace m)).

(** ** What the package takes from outside *)

Record World : Type := {
  (** the package-level variable [Debug] *)
  Debug : bool;
  (** [os.Args[0]] *)
  os_Args0 : string;
  (** [filepath.Dir], a function of the host's path syntax *)
  filepath_Dir : string -> string;
  (** [filepath.Abs]: depends on the working directory and may fail *)
  filepath_Abs : string -> string * error;
  (** [path.Join] of two elements *)
  path_Join : string -> string -> string;
  (** [strings.ToLower], with the case tables of the Unicode library *)
  strings_ToLower : string -> string;
  (** what a run of the binary [bin] with [args] gives back:
      its combined output and the error of [CombinedOutput] *)
  CombinedOutput : string -> list string -> string * error
}.

(** [exec.Command(bin, args...)] followed by [cmd.CombinedOutput()]. *)
Definition exec (w : World) (bin : string) (args : list string)
  : M (string * error) :=
  ([Exec bin args], Returns (CombinedOutput w bin args)).

(** ** The data of the package *)

Record Task : Type := mkTask { name : string; datetime : string; status : string }.

Record TaskCreate : Type := {
  Username : string;
  Password : string;
  Taskname : string;
  Taskrun : string;
  Arguments : list string;
  Schedule : string;
  Modifier : string;
  Days : list string;
  Months : list string;
  Idletime : string;
  Starttime : string;
  Interval : string;
  Endtime : string;
  Duration : string;
  Terminate : bool;
  Startdate : string;
  Enddate : string;
  ChannelName : string;
  NoPassword : bool;
  MarkDelete : bool;
  Force : bool;
  Level : string;
  Delaytime : string
}.

Definition taskerFile : string := "SCHTASKS".
Definition dbgMessage : string := "You are currently in debug mode.".

Module _Create.
Definition Command := "/CREATE".
Definition username := "/RU".
Definition password := "/RP".
Definition schedule := "/SC".
Definition modifier := "/MO".
Definition days := "/D".
Definition months := "/M".
Definition idletime := "/I".
Definition taskname := "/TN".
Definition taskrun := "/TR".
Definition starttime := "/ST".
Definition interval := "/RI".
Definition endtime := "/ET".
Definition duration := "/DU".
Definition terminate := "/K".
Definition startdate := "/SD".
Definition enddate := "/ED".
Definition channelName := "/EC".
Definition noPassword := "/NP".
Definition markDelete := "/Z".
Definition preVista := "/V1".
Definition force := "/F".
Definition level := "/RL".
Definition delaytime := "/DELAY".
End _Create.

Module _Delete.
Definition Command := "/DELETE".
Definition taskname := "/TN".
Definition force := "/F".
End _Delete.

Module _Query.
Definition Command := "/QUERY".
Definition format := "/FO".
Definition formatCSV := "CSV".
Definition formatLIST := "LIST".
Definition formatTABLE := "TABLE".
Definition noHeader := "/NH".
End _Query.

Module _Change.
Definition Command := "/CHANGE".
End _Change.

Module _Run.
Definition Command := "/RUN".
Definition taskname := "/TN".
Definition immediate := "/I".
End _Run.

Module _End.
Definition Command := "/END".
Definition taskname := "/TN".
End _End.

Module _ShowSid.
Definition Command := "/SHOWSID".
Definition taskname := "/TN".
End _ShowSid.

Record SchTask : Type := {
  bin : string;
  prefix : string;
  compatibility : bool
}.

Definition New (com : bool) : SchTask :=
  {| bin := taskerFile; prefix := "go-wintask-"; compatibility := com |}.

(** [catch]: an error of the invocation ends the process with the output
    as the message. *)
Definition catch (out : string) (e : error) : M unit :=
  match e with
  | Some _ => fatal out
  | None => ret tt
  end.

Definition getCurrDir (w : World) : M string :=
  let (dir, err) := filepath_Abs w (filepath_Dir w (os_Args0 w)) in
  match err with
  | Some msg => fatal msg
  | None => ret dir
  end.

Definition getCurrExe (w : World) : string :=
  let (_, file) := path.Split (os_Args0 w) in file.

(** Go's [append(s, x)]. *)
Definition append {A} (s : list A) (x : A) : list A := (s ++ [x])%list.

(** The test [s != ""]. *)
Definition nonEmpty (s : string) : bool := negb (String.eqb s "").

(** The double-quote character as a string. *)
Definition dquote : string := String "034" EmptyString.

(** ** [TaskMake] *)

(** The block repeated for every optional string field:
    [if value != "" { cmds = append(cmds, flag); cmds = append(cmds, value) }]. *)
Definition addValue (cmds : list string) (flag value : string)
  : list string :=
  if nonEmpty value then append (append cmds flag) value else cmds.

(** The block of a boolean field: [if on { cmds = append(cmds, flag) }]. *)
Definition addFlag (cmds : list string) (flag : string) (on : bool)
  : list string :=
  if on then append cmds flag else cmds.

(** The block of [Days] and of [Months]: the elements are concatenated,
    each followed by a comma, one trailing comma is cut, and the flag is
    added when text is left. *)
Definition addList (cmds : list string) (flag : string)
           (values : list string) : list string :=
  if (0 <? List.length values)%nat then
    let f := fold_left (fun f d => f ++ d ++ ",") values "" in
    let f := strings.TrimSuffix f "," in
    if nonEmpty f then append (append cmds flag) f else cmds
  else cmds.

Definition TaskMake (w : World) (task : SchTask) (taskcreate : TaskCreate)
           (command : string) (own : bool) : M (list string) :=
  let cmds : list string := [] in
  let cmds := append cmds command in
  let cmds := addValue cmds _Create.username (Username taskcreate) in
  let cmds := addValue cmds _Create.password (Password taskcreate) in
  let cmds := addValue cmds _Create.schedule (Schedule taskcreate) in
  let cmds := addValue cmds _Create.modifier (Modifier taskcreate) in
  let cmds := addList cmds _Create.days (Days taskcreate) in
  let cmds := addList cmds _Create.months (Months taskcreate) in
  let cmds := addValue cmds _Create.idletime (Idletime taskcreate) in
  let cmds := addValue cmds _Create.starttime (Starttime taskcreate) in
  let cmds := addValue cmds _Create.interval (Interval taskcreate) in
  let cmds := addValue cmds _Create.endtime (Endtime taskcreate) in
  let cmds := addValue cmds _Create.duration (Duration taskcreate) in
  let cmds := addFlag cmds _Create.terminate (Terminate taskcreate) in
  let cmds := addValue cmds _Create.startdate (Startdate taskcreate) in
  let cmds := addValue cmds _Create.enddate (Enddate taskcreate) in
  let cmds := addValue cmds _Create.channelName (ChannelName taskcreate) in
  let cmds := addFlag cmds _Create.noPassword (NoPassword taskcreate) in
  let cmds := addFlag cmds _Create.force (Force taskcreate) in
  let cmds := addValue cmds _Create.level (Level taskcreate) in
  let cmds := addValue cmds _Create.delaytime (Delaytime taskcreate) in
  let cmds := append cmds _Create.taskname in
  let name := Taskname taskcreate in
  let name := if own then prefix task ++ name else name in
  let cmds := append cmds name in
  let cmds := append cmds _Create.taskrun in
  let run := Taskrun taskcreate in
  run <- (if String.eqb run ""
          then dir <- getCurrDir w ;; ret (path_Join w dir (getCurrExe w))
          else ret run) ;;
  let args :=
    fold_left
      (fun args arg =>
         if (0 <=? strings.IndexRune arg " ")%Z
         then args ++ dquote ++ arg ++ dquote ++ " "
         else args ++ arg ++ " ")
      (Arguments taskcreate) "" in
  let run := dquote ++ run ++ dquote ++ " " ++ strings.TrimSpace args in
  let run := strings.TrimSpace run in
  let cmds := append cmds run in
  let cmds :=
    if MarkDelete taskcreate
    then append (append cmds _Create.preVista) _Create.markDelete
    else cmds in
  _ <- (if Debug w then println "Commands:" cmds else ret tt) ;;
  ret cmds.

(** ** The public operations *)

Definition Create (w : World) (task : SchTask) (taskcreate : TaskCreate)
  : M string :=
  cmds <- TaskMake w task taskcreate _Create.Command true ;;
  if Debug w then ret dbgMessage
  else
    '(output, err) <- exec w (bin task) cmds ;;
    _ <- catch output err ;;
    ret output.

Definition Delete (w : World) (task : SchTask) (taskname : string)
           (own force : bool) : M string :=
  if Debug w then ret dbgMessage
  else
    let taskname := if own then prefix task ++ taskname else taskname in
    '(output, err) <-
      (if negb force
       then exec w (bin task) [_Delete.Command; _Delete.taskname; taskname]
       else exec w (bin task)
                 [_Delete.Command; _Delete.taskname; taskname; _Delete.force]) ;;
    _ <- catch output err ;;
    ret output.

(** The name the lines of the query output are compared with. *)
Definition queryName (task : SchTask) (name : string) (own : bool) : string :=
  if own then
    let tmp := name in
    let tmp := if String.eqb name "*" then "" else tmp in
    prefix task ++ tmp
  else name.

(** Go's [ts[i]]: panics when [i] is out of range. *)
Definition index (ts : list string) (i : nat) : M string :=
  match nth_error ts i with
  | Some x => ret x
  | None => panic
  end.

(** One iteration of the scanner loop of [Query] on the line [text]. *)
Definition queryLine (w : World) (task : SchTask) (name : string)
           (taskList : list Task) (text : string) : M (list Task) :=
  let tx := strings.RemoveAll text "034" in
  if compatibility task && strings.HasPrefix tx "TaskName" then ret taskList
  else
    let ts := strings.Split tx "," in
    ts0 <- index ts 0 ;;
    let tname := strings.TrimSpace ts0 in
    if String.eqb name "*" || String.eqb name "" ||
       strings.Contains (strings_ToLower w tname) (strings_ToLower w name)
    then
      ts1 <- index ts 1 ;;
      let dtime := strings.TrimSpace ts1 in
      ts2 <- index ts 2 ;;
      let stat := strings.TrimSpace ts2 in
      ret (append taskList (mkTask tname dtime stat))
    else ret taskList.

(** The scanner loop of [Query]. *)
Fixpoint queryLoop (w : World) (task : SchTask) (name : string)
         (taskList : list Task) (lines : list string) : M (list Task) :=
  match lines with
  | [] => ret taskList
  | text :: rest =>
      taskList <- queryLine w task name taskList text ;;
      queryLoop w task name taskList rest
  end.

Definition Query (w : World) (task : SchTask) (name : string) (own : bool)
  : M (list Task) :=
  let taskList : list Task := [] in
  '(output, err) <-
    (if compatibility task
     then exec w (bin task) [_Query.Command; _Query.format; _Query.formatCSV]
     else exec w (bin task)
               [_Query.Command; _Query.format; _Query.formatCSV;
                _Query.noHeader]) ;;
  _ <- catch output err ;;
  let name := queryName task name own in
  queryLoop w task name taskList (bufio.ScanLines output).

Definition Change (w : World) (task : SchTask) (taskcreate : TaskCreate)
           (own : bool) : M string :=
  cmds <- TaskMake w task taskcreate _Change.Command own ;;
  if Debug w then ret dbgMessage
  else
    '(output, err) <- exec w (bin task) cmds ;;
    _ <- catch output err ;;
    ret output.

Definition Run (w : World) (task : SchTask) (taskName : string) (own : bool)
  : M string :=
  if Debug w then ret dbgMessage
  else
    let taskName := if own then prefix task ++ taskName else taskName in
    '(output, err) <-
      exec w (bin task)
           [_Run.Command; _Run.taskname; taskName; _Run.immediate] ;;
    _ <- catch output err ;;
    ret output.

Definition End_ (w : World) (task : SchTask) (taskName : string) (own : bool)
  : M string :=
  if Debug w then ret dbgMessage
  else
    let taskName := if own then prefix task ++ taskName else taskName in
    '(output, err) <-
      exec w (bin task) [_End.Command; _End.taskname; taskName] ;;
    _ <- catch output err ;;
    ret output.

Definition ShowSid (w : World) (task : SchTask) (taskName : string)
           (own : bool) : M string :=
  if Debug w then ret dbgMessage
  else
    let taskName := if own then prefix task ++ taskName else taskName in
    let taskName := "\" ++ taskName in
    '(output, err) <-
      exec w (bin task) [_ShowSid.Command; _ShowSid.taskname; taskName] ;;
    _ <- catch output err ;;
    ret output.

Definition ShowHelp (w : World) (task : SchTask) (command : string)
  : M string :=
  '(output, err) <- exec w (bin task) [command; "/?"] ;;
  _ <- catch output err ;;
  ret output.

(** ** Concrete worlds, for evaluating the operations *)

(** [strings.ToLower] on ASCII text: the letters A to Z are lowered. *)
Fixpoint lowerASCII (s : string) : string :=
  match s with
  | EmptyString => EmptyString
  | String c s' =>
      let n := N_of_ascii c in
      String (if ((65 <=? n) && (n <=? 90))%N then ascii_of_N (n + 32) else c)
             (lowerASCII s')
  end.

(** A host whose binary answers every invocation with [answer], whose
    [filepath.Abs] gives [abs], and whose executable was started as
    [C:/tools/app.exe]. *)
Definition hostWorld (debug : bool) (abs : string * error)
           (answer : string * error) : World :=
  {| Debug := debug;
     os_Args0 := "C:/tools/app.exe";
     filepath_Dir := fun p => fst (path.Split p);
     filepath_Abs := fun _ => abs;
     path_Join := fun dir file => dir ++ "/" ++ file;
     strings_ToLower := lowerASCII;
     CombinedOutput := fun _ _ => answer |}.

(** The zero value of [TaskCreate]. *)
Definition emptyTask : TaskCreate :=
  {| Username := ""; Password := ""; Taskname := ""; Taskrun := "";
     Arguments := []; Schedule := ""; Modifier := ""; Days := [];
     Months := []; Idletime := ""; Starttime := ""; Interval := "";
     Endtime := ""; Duration := ""; Terminate := false; Startdate := "";
     Enddate := ""; ChannelName := ""; NoPassword := false;
     MarkDelete := false; Force := false; Level := ""; Delaytime := "" |}.

(** The configuration of [TestCreate]. *)
Definition testTask : TaskCreate :=
  {| Username := ""; Password := ""; Taskname := "Test";
     Taskrun := "notepad.exe"; Arguments := []; Schedule := "DAILY";
     Modifier := ""; Days := []; Months := []; Idletime := "";
     Starttime := "12:00"; Interval := "0"; Endtime := "12:01";
     Duration := ""; Terminate := true; Startdate := ""; Enddate := "";
     ChannelName := ""; NoPassword := false; MarkDelete := false;
     Force := false; Level := ""; Delaytime := "" |}.

(** ** The layout of the argument vector, piece by piece *)

(** A flag and its value, present exactly when the value is not empty. *)
Definition flagValue (flag value : string) : list string :=
  if String.eqb value "" then [] else [flag; value].

(** A flag without value, present exactly when the switch is on. *)
Definition bareFlag (flag : string) (on : bool) : list string :=
  if on then [flag] else [].

(** A list whose comma-joined text is empty: no element, or one empty one. *)
Definition emptyJoin (values : list string) : bool :=
  match values with
  | [] => true
  | [v] => String.eqb v ""
  | _ => false
  end.

(** A flag and the comma-joined values of a list. *)
Definition flagList (flag : string) (values : list string) : list string :=
  if emptyJoin values then [] else [flag; String.concat "," values].

(** An argument of the program, in double quotes when it holds a space. *)
Definition quoteArg (arg : string) : string :=
  if (0 <=? strings.IndexRune arg " ")%Z then dquote ++ arg ++ dquote else arg.

Definition joinedArgs (arguments : list string) : string :=
  String.concat " " (map quoteArg arguments).

(** The value after /TR: the quoted program, then the trimmed joined
    arguments after one space, when any text is left of them. *)
Definition runText (program : string) (arguments : list string) : string :=
  let rest := strings.TrimSpace (joinedArgs arguments) in
  dquote ++ program ++ dquote ++
  (if String.eqb rest "" then "" else " " ++ rest).

Definition ownName (task : SchTask) (name : string) (own : bool) : string :=
  if own then prefix task ++ name else name.

(** The sub-command and the options that come before /D. *)
Definition beforeDays (taskcreate : TaskCreate) (command : string)
  : list string :=
  (command ::
   flagValue "/RU" (Username taskcreate) ++
   flagValue "/RP" (Password taskcreate) ++
   flagValue "/SC" (Schedule taskcreate) ++
   flagValue "/MO" (Modifier taskcreate))%list.

(** The options between /M and /TN. *)
Definition afterMonths (taskcreate : TaskCreate) : list string :=
  (flagValue "/I" (Idletime taskcreate) ++
   flagValue "/ST" (Starttime taskcreate) ++
   flagValue "/RI" (Interval taskcreate) ++
   flagValue "/ET" (Endtime taskcreate) ++
   flagValue "/DU" (Duration taskcreate) ++
   bareFlag "/K" (Terminate taskcreate) ++
   flagValue "/SD" (Startdate taskcreate) ++
   flagValue "/ED" (Enddate taskcreate) ++
   flagValue "/EC" (ChannelName taskcreate) ++
   bareFlag "/NP" (NoPassword taskcreate) ++
   bareFlag "/F" (Force taskcreate) ++
   flagValue "/RL" (Level taskcreate) ++
   flagValue "/DELAY" (Delaytime taskcreate))%list.

(** Everything before /TN. *)
Definition options (taskcreate : TaskCreate) (command : string)
  : list string :=
  (beforeDays taskcreate command ++
   flagList "/D" (Days taskcreate) ++
   flagList "/M" (Months taskcreate) ++
   afterMonths taskcreate)%list.

(** What follows the value of /TR. *)
Definition markDeleteFlags (taskcreate : TaskCreate) : list string :=
  if MarkDelete taskcreate then ["/V1"; "/Z"] else [].

Definition layout (task : SchTask) (taskcreate : TaskCreate)
           (command : string) (own : bool) (program : string) : list string :=
  (options taskcreate command ++
   ["/TN"; ownName task (Taskname taskcreate) own;
    "/TR"; runText program (Arguments taskcreate)] ++
   markDeleteFlags taskcreate)%list.

(** The program that is run: [Taskrun], or the running executable. *)
Definition program (w : World) (taskcreate : TaskCreate) : string :=
  if String.eqb (Taskrun taskcreate) ""
  then path_Join w (fst (filepath_Abs w (filepath_Dir w (os_Args0 w))))
                 (getCurrExe w)
  else Taskrun taskcreate.

(** The program can be named: [Taskrun] is given, or the directory of the
    running executable is found. *)
Definition resolves (w : World) (taskcreate : TaskCreate) : Prop :=
  Taskrun taskcreate <> "" \/
  snd (filepath_Abs w (filepath_Dir w (os_Args0 w))) = None.

(** A name is placed in an argument vector handed to the binary. *)
Definition namePlaced {A} (m : M A) (n : string) : Prop :=
  exists b args, In (Exec b args) (trace m) /\ In n args.

(** ** The records of a query output, line by line *)

Definition unquote (text : string) : string := strings.RemoveAll text "034".

(** The trimmed [i]-th comma-separated field of a line. *)
Definition field (tx : string) (i : nat) : string :=
  strings.TrimSpace (nth i (strings.Split tx ",") "").

Definition passes (w : World) (name tx : string) : bool :=
  String.eqb name "*" || String.eqb name "" ||
  strings.Contains (strings_ToLower w (field tx 0)) (strings_ToLower w name).

(** A header line, skipped in compatibility mode. *)
Definition isHeader (task : SchTask) (tx : string) : bool :=
  compatibility task && strings.HasPrefix tx "TaskName".

Definition record (tx : string) : Task :=
  mkTask (field tx 0) (field tx 1) (field tx 2).

(** The lines that reach the field accesses: scanned, unquoted, not a
    skipped header, and passing the name filter. *)
Definition selected (w : World) (task : SchTask) (name output : string)
  : list string :=
  filter (passes w name)
         (filter (fun tx => negb (isHeader task tx))
                 (map unquote (bufio.ScanLines output))).

Definition records (w : World) (task : SchTask) (name output : string)
  : list Task :=
  map record (selected w task name output).

(** The records as the specification words them: one per scanned line that
    passes the name filter. *)
Definition recordsClaimed (w : World) (name output : string) : list Task :=
  map record (filter (passes w name) (map unquote (bufio.ScanLines output))).


(** The argument vector of the query invocation. *)
Definition queryArgs (task : SchTask) : list string :=
  if compatibility task then ["/QUERY"; "/FO"; "CSV"]
  else ["/QUERY"; "/FO"; "CSV"; "/NH"].

(** A line has the three fields that the loop of [Query] reads. *)
Definition threeFields (tx : string) : bool :=
  (3 <=? List.length (strings.Split tx ","))%nat.

(** ** Sample hosts and inputs *)

Definition lf : string := String "010" EmptyString.
Definition tab : string := String "009" EmptyString.

(** The binary succeeds; the directory of the executable is found. *)
Definition calmWorld : World :=
  hostWorld false ("C:/tools", None) ("SUCCESS", None).

(** Another such host, in debug mode and started from elsewhere. *)
Definition debugWorld : World :=
  hostWorld true ("D:/bin", None) ("SUCCESS", None).

(** A host in debug mode on which [filepath.Abs] fails. *)
Definition lostWorld : World :=
  hostWorld true ("", Some "getwd: no such file or directory")
            ("SUCCESS", None).

(** A configuration with only a name, a program, lists and arguments. *)
Definition listTask (days months arguments : list string) : TaskCreate :=
  {| Username := ""; Password := ""; Taskname := "Test";
     Taskrun := "notepad.exe"; Arguments := arguments; Schedule := "";
     Modifier := ""; Days := days; Months := months; Idletime := "";
     Starttime := ""; Interval := ""; Endtime := ""; Duration := "";
     Terminate := false; Startdate := ""; Enddate := ""; ChannelName := "";
     NoPassword := false; MarkDelete := false; Force := false; Level := "";
     Delaytime := "" |}.

(** A query output: a header line and two tasks, one of them prefixed. *)
Definition listing : string :=
  dquote ++ "TaskName" ++ dquote ++ "," ++ dquote ++ "Next Run Time" ++ dquote
    ++ "," ++ dquote ++ "Status" ++ dquote ++ lf ++
  dquote ++ "\go-wintask-Test" ++ dquote ++ "," ++ dquote ++ "N/A" ++ dquote
    ++ "," ++ dquote ++ "Ready" ++ dquote ++ lf ++
  dquote ++ "\Backup" ++ dquote ++ "," ++ dquote ++ "N/A" ++ dquote
    ++ "," ++ dquote ++ "Disabled" ++ dquote ++ lf.

(** A host whose binary answers with [output] and no error. *)
Definition answering (output : string) : World :=
  hostWorld false ("C:/tools", None) (output, None).

(** The three lines shared by the operations: run the binary, end the
    process on an error, return the output. *)
Definition invoke (w : World) (b : string) (args : list string) : M string :=
  '(output, err) <- exec w b args ;;
  _ <- catch output err ;;
  ret output.

(** ** Further notions, for the properties of the whole package *)

(** [strings.IndexRune(s, c) >= 0]: the byte occurs in the text. *)
Definition hasByte (s : string) (c : ascii) : bool :=
  (0 <=? strings.IndexRune s c)%Z.

(** The world with the package variable [Debug] set to [debug]. *)
Definition setDebug (w : World) (debug : bool) : World :=
  {| Debug := debug;
     os_Args0 := os_Args0 w;
     filepath_Dir := filepath_Dir w;
     filepath_Abs := filepath_Abs w;
     path_Join := path_Join w;
     strings_ToLower := strings_ToLower w;
     CombinedOutput := CombinedOutput w |}.

(** The computation runs the binary once and the process ends with the
    message [out]. *)
Definition failsOnce {A} (m : M A) (out : string) : Prop :=
  outcome m = Fatal out /\ invocations m = 1.

(** The computation runs the binary once and returns [a]. *)
Definition returnsOnce {A} (m : M A) (a : A) : Prop :=
  outcome m = Returns a /\ invocations m = 1.

(** The test of the name filter on the name of a record. *)
Definition nameMatches (w : World) (filter_name : string) (t : Task) : bool :=
  String.eqb filter_name "*" || String.eqb filter_name "" ||
  strings.Contains (strings_ToLower w (name t))
                   (strings_ToLower w filter_name).

Definition cr : string := String "013" EmptyString.
Definition crlf : string := String "013" (String "010" EmptyString).

(** A task as a line of quoted, comma-separated fields, the form in which
    the binary lists it. *)
Definition csvLine (t : Task) : string :=
  dquote ++ name t ++ dquote ++ "," ++
  dquote ++ datetime t ++ dquote ++ "," ++
  dquote ++ status t ++ dquote.

(** A listing: every line followed by the end-of-line text [eol]. *)
Definition csvListing (eol : string) (tasks : list Task) : string :=
  fold_right (fun t listing => csvLine t ++ eol ++ listing) "" tasks.

(** A field that a listing can carry: it holds no double quote, comma or
    line feed, and no white space at its ends. *)
Definition cleanField (f : string) : Prop :=
  hasByte f "034" = false /\ hasByte f "," = false /\
  hasByte f "010" = false /\ strings.TrimSpace f = f.

Definition cleanTask (t : Task) : Prop :=
  cleanField (name t) /\ cleanField (datetime t) /\ cleanField (status t) /\
  bufio.tooLong (csvLine t ++ cr) = false.

(** A text of [n] bytes [c]. *)
Fixpoint repeatByte (c : ascii) (n : nat) : string :=
  match n with
  | O => EmptyString
  | S n' => String c (repeatByte c n')
  end.

(** The world in which the binary gives [answer] to every invocation. *)
Definition setOutput (w : World) (answer : string * error) : World :=
  {| Debug := Debug w;
     os_Args0 := os_Args0 w;
     filepath_Dir := filepath_Dir w;
     filepath_Abs := filepath_Abs w;
     path_Join := path_Join w;
     strings_ToLower := strings_ToLower w;
     CombinedOutput := fun _ _ => answer |}.

(** A host on which the executable was started with a path that has
    backslashes only. *)
Definition backslashWorld : World :=
  {| Debug := false;
     os_Args0 := "C:\tools\app.exe";
     filepath_Dir := fun _ => "C:\tools";
     filepath_Abs := fun p => (p, None);
     path_Join := fun dir file => dir ++ "/" ++ file;
     strings_ToLower := lowerASCII;
     CombinedOutput := fun _ _ => ("SUCCESS", None) |}.

(** A configuration with every field set. *)
Definition fullTask : TaskCreate :=
  {| Username := "SYSTEM"; Password := "*"; Taskname := "Full";
     Taskrun := "C:\Program Files\app.exe";
     Arguments := ["/quiet"; "my file.txt"]; Schedule := "MONTHLY";
     Modifier := "2"; Days := ["MON"; "FRI"]; Months := ["JAN"; "JUL"];
     Idletime := "10"; Starttime := "12:00"; Interval := "60";
     Endtime := "14:00"; Duration := "02:00"; Terminate := true;
     Startdate := "01/01/2026"; Enddate := "12/31/2026";
     ChannelName := "System"; NoPassword := true; MarkDelete := true;
     Force := true; Level := "HIGHEST"; Delaytime := "0001:00" |}.

(** A host whose binary fails on every invocation, with [output]. *)
Definition failing (output : string) : World :=
  hostWorld false ("C:/tools", None) (output, Some "exit status 1").

(** A text with no white space at its ends, and not empty. *)
Definition firm (s : string) : Prop :=
  s <> "" /\ strings.TrimLeft s = s /\
  strings.trimBack (strings.rev s) = strings.rev s.

(** ** The earlier revision of the package

    The second source file of the repository is an earlier state of
    [tasker.go]: no debug mode, no compatibility mode, [Create] without its
    options, and a [Query] that prefixes the name inside its loop. *)

Module Earlier.

Record TaskCreate : Type := {
  schedule : string;
  modifier : string;
  days : string;
  months : string;
  idletime : string;
  taskname : string;
  taskrun : string;
  starttime : string;
  interval : string;
  endtime : string;
  duration : string;
  terminate : string;
  startdate : string;
  enddate : string;
  channelName : string;
  noPassword : string;
  markDelete : string;
  force : string;
  level : string;
  delaytime : string
}.

Module _Create.
Definition command := "/CREATE".
Definition taskname := "/TN".
End _Create.

Module _Delete.
Definition command := "/DELETE".
Definition taskname := "/TN".
Definition force := "/F".
End _Delete.

Module _Query.
Definition command := "/QUERY".
Definition format := "/FO".
Definition formatCSV := "CSV".
Definition formatLIST := "LIST".
Definition formatTABLE := "TABLE".
Definition noHeader := "/NH".
End _Query.

Record SchTask : Type := {
  bin : string;
  prefix : string
}.

Definition New : SchTask :=
  {| bin := taskerFile; prefix := "go-wintask-" |}.

Definition Create (w : World) (task : SchTask) (taskcreate : TaskCreate)
  : M unit :=
  let cmds : list string := [] in
  let cmds := append cmds _Create.taskname in
  let cmds := append cmds (taskname taskcreate) in
  '(output, err) <- exec w (bin task) cmds ;;
  catch output err.

Definition Delete (w : World) (task : SchTask) (taskname : string)
           (own force : bool) : M unit :=
  '(output, err) <-
    (if negb force
     then exec w (bin task) [_Delete.command; _Delete.taskname; taskname]
     else exec w (bin task)
               [_Delete.command; _Delete.taskname; taskname; _Delete.force]) ;;
  catch output err.

(** One iteration of the scanner loop: the loop variables are the name,
    which the iteration may change, and the list. *)
Definition queryLine (w : World) (task : SchTask) (own : bool)
           (state : string * list Task) (text : string)
  : M (string * list Task) :=
  let (name, taskList) := state in
  let tx := strings.RemoveAll text "034" in
  let ts := strings.Split tx "," in
  ts0 <- index ts 0 ;;
  let tname := strings.TrimSpace ts0 in
  let name := if own then prefix task ++ name else name in
  if String.eqb name "*" || String.eqb name "" ||
     strings.Contains (strings_ToLower w tname) (strings_ToLower w name)
  then
    ts1 <- index ts 1 ;;
    let dtime := strings.TrimSpace ts1 in
    ts2 <- index ts 2 ;;
    let stat := strings.TrimSpace ts2 in
    ret (name, append taskList (mkTask tname dtime stat))
  else ret (name, taskList).

Fixpoint queryLoop (w : World) (task : SchTask) (own : bool)
         (state : string * list Task) (lines : list string)
  : M (string * list Task) :=
  match lines with
  | [] => ret state
  | text :: rest =>
      state <- queryLine w task own state text ;;
      queryLoop w task own state rest
  end.

Definition Query (w : World) (task : SchTask) (name : string) (own : bool)
  : M (list Task) :=
  let taskList : list Task := [] in
  '(output, err) <-
    exec w (bin task)
         [_Query.command; _Query.format; _Query.formatCSV; _Query.noHeader] ;;
  _ <- catch output err ;;
  '(_, taskList) <-
    queryLoop w task own (name, taskList) (bufio.ScanLines output) ;;
  ret taskList.

Definition Change (w : World) (task : SchTask) (name : string) (own : bool)
  : M unit :=
  ret tt.

End Earlier.

(** The receiver of the present package that an earlier receiver turns
    into: the same binary and prefix, outside compatibility mode. *)
Definition present (task : Earlier.SchTask) : SchTask :=
  {| bin := Earlier.bin task; prefix := Earlier.prefix task;
     compatibility := false |}.

(** The name that the earlier [Query] with own compares line number [k]
    (counted from 0) with: the prefix [k + 1] times before the name. *)
Fixpoint grown (pre name : string) (k : nat) : string :=
  match k with
  | O => pre ++ name
  | S k' => pre ++ grown pre name k'
  end.

(** The lines that pass when line [k] is compared with [names k]. *)
Fixpoint passing (w : World) (names : nat -> string) (k : nat)
         (lines : list string) : list string :=
  match lines with
  | [] => []
  | tx :: rest =>
      if passes w (names k) tx then tx :: passing w names (S k) rest
      else passing w names (S k) rest
  end.

(** The zero value of [SchTask], which a caller can write as
    [tasker.SchTask{}]: no binary and no prefix. *)
Definition zeroTask : SchTask :=
  {| bin := ""; prefix := ""; compatibility := false |}.

(** ** Facts about strings *)

Lemma append_nil_r (s : string) : s ++ "" = s.
Proof. induction s as [|c s IH]; simpl; [reflexivity | now rewrite IH]. Qed.

Lemma append_assoc (a b c : string) : (a ++ b) ++ c = a ++ b ++ c.
Proof. induction a as [|x a IH]; simpl; [reflexivity | now rewrite IH]. Qed.

Lemma length_append (a b : string) :
  String.length (a ++ b) = String.length a + String.length b.
Proof. induction a as [|x a IH]; simpl; [reflexivity | now rewrite IH]. Qed.

Lemma rev_append (a b : string) :
  strings.rev (a ++ b) = strings.rev b ++ strings.rev a.
Proof.
  induction a as [|x a IH]; simpl.
  - now rewrite append_nil_r.
  - now rewrite IH, append_assoc.
Qed.

Lemma rev_involutive (s : string) : strings.rev (strings.rev s) = s.
Proof.
  induction s as [|c s IH]; simpl; [reflexivity|].
  now rewrite rev_append, IH.
Qed.

Lemma rev_length (s : string) :
  String.length (strings.rev s) = String.length s.
Proof.
  induction s as [|c s IH]; simpl; [reflexivity|].
  rewrite length_append, IH; simpl; lia.
Qed.

Lemma prefix_append (p x : string) : String.prefix p (p ++ x) = true.
Proof.
  induction p as [|c p IH]; simpl.
  - now destruct x.
  - destruct (ascii_dec c c) as [_|ne]; [exact IH | now elim ne].
Qed.

Lemma substring_append (x y : string) :
  String.substring 0 (String.length x) (x ++ y) = x.
Proof.
  induction x as [|c x IH]; simpl.
  - now destruct y.
  - now rewrite IH.
Qed.

Lemma TrimSuffix_append (x suffix : string) :
  strings.TrimSuffix (x ++ suffix) suffix = x.
Proof.
  unfold strings.TrimSuffix, strings.HasSuffix.
  rewrite rev_append, prefix_append, length_append.
  replace (String.length x + String.length suffix - String.length suffix)
    with (String.length x) by lia.
  apply substring_append.
Qed.

Lemma eqb_empty_append (a : string) (c : ascii) (b : string) :
  String.eqb (a ++ String c b) "" = false.
Proof. now destruct a. Qed.

(** ** The loops of [TaskMake] as joins *)

Lemma concat_cons (sep x : string) (l : list string) :
  l <> [] -> String.concat sep (x :: l) = x ++ sep ++ String.concat sep l.
Proof. destruct l; [now intros []|reflexivity]. Qed.

Lemma fold_join (sep : string) (l : list string) (acc : string) :
  fold_left (fun f d => f ++ d ++ sep) l acc =
  acc ++ match l with [] => "" | _ => String.concat sep l ++ sep end.
Proof.
  revert acc; induction l as [|x l IH]; intros acc.
  - simpl. now rewrite append_nil_r.
  - cbn [fold_left]. rewrite IH.
    destruct l as [|y l].
    + cbn. now rewrite append_nil_r.
    + rewrite (concat_cons sep x (y :: l)) by discriminate.
      now rewrite !append_assoc.
Qed.

Lemma concat_empty (sep : string) (c : ascii) (l : list string) :
  String.eqb (String.concat (String c sep) l) "" = emptyJoin l.
Proof.
  destruct l as [|x [|y l]]; [reflexivity | reflexivity |].
  cbn [String.concat emptyJoin].
  apply eqb_empty_append.
Qed.

Lemma emptyJoin_spec (l : list string) :
  emptyJoin l = true <-> l = [] \/ l = [""].
Proof.
  destruct l as [|x [|y l]]; cbn [emptyJoin].
  - split; [now left | reflexivity].
  - rewrite String.eqb_eq. split.
    + intros ->. now right.
    + intros [H|H]; [discriminate H | now inversion H].
  - split; [discriminate | intros [H|H]; discriminate H].
Qed.

(** The /D and /M steps of [TaskMake] add the flag and the joined list. *)
Lemma listStep (cmds : list string) (flag : string) (values : list string) :
  addList cmds flag values = (cmds ++ flagList flag values)%list.
Proof.
  unfold addList, flagList.
  destruct values as [|v values].
  - simpl. now rewrite app_nil_r.
  - cbv zeta. rewrite fold_join.
    change (0 <? List.length (v :: values))%nat with true. cbv iota.
    change ("" ++ ?x) with x.
    rewrite TrimSuffix_append. unfold nonEmpty.
    rewrite (concat_empty "" "," (v :: values)).
    destruct (emptyJoin (v :: values)); simpl.
    + now rewrite app_nil_r.
    + unfold append. now rewrite <- app_assoc.
Qed.

Lemma valueStep (cmds : list string) (flag value : string) :
  addValue cmds flag value = (cmds ++ flagValue flag value)%list.
Proof.
  unfold addValue, nonEmpty, flagValue, append.
  destruct (String.eqb value ""); simpl.
  - now rewrite app_nil_r.
  - now rewrite <- app_assoc.
Qed.

Lemma bareStep (cmds : list string) (flag : string) (on : bool) :
  addFlag cmds flag on = (cmds ++ bareFlag flag on)%list.
Proof.
  unfold addFlag. destruct on; simpl; [reflexivity | now rewrite app_nil_r].
Qed.

(** ** Facts about trimming *)

Lemma string_length_ind (P : string -> Prop) :
  (forall s, (forall t, String.length t < String.length s -> P t) -> P s) ->
  forall s, P s.
Proof.
  intros step s.
  assert (H : forall n t, String.length t < n -> P t).
  { induction n as [|n IH]; intros t Ht; [lia|].
    apply step. intros u Hu. apply IH. lia. }
  apply (H (S (String.length s))). lia.
Qed.

Section TrimFront.

Variable sp2 : ascii -> ascii -> bool.
Variable sp3 : ascii -> ascii -> ascii -> bool.

(** No encoding of white space has a space as its second or third byte. *)
Hypothesis sp2_space : forall b, sp2 b " " = false.
Hypothesis sp3_space2 : forall a b, sp3 a " " b = false.
Hypothesis sp3_space3 : forall a b, sp3 a b " " = false.

Let trim := strings.trimFront sp2 sp3.

Lemma trimFront_idempotent (s : string) : trim (trim s) = trim s.
Proof.
  induction s as [s IH] using string_length_ind.
  destruct s as [|b1 [|b2 [|b3 r3]]]; [reflexivity | | |].
  - unfold trim; simpl. destruct (strings.asciiSpace b1) eqn:E1; simpl;
      [reflexivity | now rewrite E1].
  - unfold trim; simpl. destruct (strings.asciiSpace b1) eqn:E1.
    + apply (IH (String b2 "")). simpl; lia.
    + destruct (sp2 b1 b2) eqn:E2; [reflexivity|].
      simpl. now rewrite E1, E2.
  - unfold trim; simpl. destruct (strings.asciiSpace b1) eqn:E1.
    + apply (IH (String b2 (String b3 r3))). simpl; lia.
    + destruct (sp2 b1 b2) eqn:E2.
      * apply (IH (String b3 r3)). simpl; lia.
      * destruct (sp3 b1 b2 b3) eqn:E3.
        -- apply (IH r3). simpl; lia.
        -- simpl. now rewrite E1, E2, E3.
Qed.

(** Trimming in front of a space: either everything before the space goes
    and trimming goes on behind it, or what is left keeps the rest. *)
Lemma trimFront_before_space (s x : string) :
  trim (s ++ String " " x) =
  if String.eqb (trim s) "" then trim x else trim s ++ String " " x.
Proof.
  induction s as [s IH] using string_length_ind.
  destruct s as [|b1 [|b2 [|b3 r3]]].
  - reflexivity.
  - unfold trim; simpl. destruct (strings.asciiSpace b1) eqn:E1;
      [reflexivity|].
    rewrite sp2_space. destruct x as [|c x]; [reflexivity|].
    now rewrite sp3_space2.
  - unfold trim; simpl. destruct (strings.asciiSpace b1) eqn:E1.
    + apply (IH (String b2 "")). simpl; lia.
    + destruct (sp2 b1 b2) eqn:E2; [reflexivity|].
      now rewrite sp3_space3.
  - unfold trim; simpl. destruct (strings.asciiSpace b1) eqn:E1.
    + apply (IH (String b2 (String b3 r3))). simpl; lia.
    + destruct (sp2 b1 b2) eqn:E2.
      * apply (IH (String b3 r3)). simpl; lia.
      * destruct (sp3 b1 b2 b3) eqn:E3; [|reflexivity].
        apply (IH r3). simpl; lia.
Qed.

(** A double quote starts no encoding of white space. *)
Hypothesis sp2_quote : forall b, sp2 "034" b = false.
Hypothesis sp3_quote : forall a b, sp3 "034" a b = false.

Lemma trimFront_quote (r : string) :
  trim (String "034" r) = String "034" r.
Proof.
  unfold trim. destruct r as [|b2 [|b3 r3]]; simpl;
    rewrite ?sp2_quote, ?sp3_quote; reflexivity.
Qed.

End TrimFront.

Lemma space2_l_space b : strings.space2 " " b = false.
Proof. reflexivity. Qed.
Lemma space2_r_space b : strings.space2 b " " = false.
Proof. unfold strings.space2. now destruct (N_of_ascii b =? 194)%N. Qed.
Lemma space3_space1 a b : strings.space3 " " a b = false.
Proof. reflexivity. Qed.
Lemma space3_space2 a b : strings.space3 a " " b = false.
Proof.
  unfold strings.space3; cbv zeta.
  change (N_of_ascii " ") with 32%N.
  cbn [N.eqb Pos.eqb].
  rewrite !andb_false_r. reflexivity.
Qed.
Lemma space3_space3 a b : strings.space3 a b " " = false.
Proof.
  unfold strings.space3; cbv zeta.
  change (N_of_ascii " ") with 32%N.
  change (32 =? 128)%N with false. change (32 =? 159)%N with false.
  change (32 =? 168)%N with false. change (32 =? 169)%N with false.
  change (32 =? 175)%N with false. change (128 <=? 32)%N with false.
  cbn [andb orb].
  rewrite !andb_false_r. reflexivity.
Qed.
Lemma space2_l_quote b : strings.space2 "034" b = false.
Proof. reflexivity. Qed.
Lemma space2_r_quote b : strings.space2 b "034" = false.
Proof. unfold strings.space2. now destruct (N_of_ascii b =? 194)%N. Qed.
Lemma space3_quote1 a b : strings.space3 "034" a b = false.
Proof. reflexivity. Qed.
Lemma space3_quote3 a b : strings.space3 a b "034" = false.
Proof.
  unfold strings.space3; cbv zeta.
  change (N_of_ascii "034") with 34%N.
  change (34 =? 128)%N with false. change (34 =? 159)%N with false.
  change (34 =? 168)%N with false. change (34 =? 169)%N with false.
  change (34 =? 175)%N with false. change (128 <=? 34)%N with false.
  cbn [andb orb].
  rewrite !andb_false_r. reflexivity.
Qed.

Lemma TrimRight_unfold (s : string) :
  strings.TrimRight s = strings.rev (strings.trimBack (strings.rev s)).
Proof. reflexivity. Qed.

Lemma TrimLeft_before_space (s x : string) :
  strings.TrimLeft (s ++ String " " x) =
  if String.eqb (strings.TrimLeft s) "" then strings.TrimLeft x
  else strings.TrimLeft s ++ String " " x.
Proof.
  apply trimFront_before_space.
  - apply space2_r_space.
  - apply space3_space2.
  - apply space3_space3.
Qed.

Lemma trimBack_before_space (s x : string) :
  strings.trimBack (s ++ String " " x) =
  if String.eqb (strings.trimBack s) "" then strings.trimBack x
  else strings.trimBack s ++ String " " x.
Proof.
  apply trimFront_before_space.
  - intros b; apply space2_l_space.
  - intros a b; apply space3_space2.
  - intros a b; apply space3_space1.
Qed.

Lemma TrimLeft_quote (r : string) :
  strings.TrimLeft (String "034" r) = String "034" r.
Proof.
  apply trimFront_quote.
  - apply space2_l_quote.
  - apply space3_quote1.
Qed.

Lemma trimBack_quote (r : string) :
  strings.trimBack (String "034" r) = String "034" r.
Proof.
  apply trimFront_quote.
  - intros b; apply space2_r_quote.
  - intros a b; apply space3_quote3.
Qed.

Lemma rev_empty (s : string) : strings.rev s = "" -> s = "".
Proof.
  intros H. rewrite <- (rev_involutive s), H. reflexivity.
Qed.

(** A space at the end does not change the trimmed text. *)
Lemma TrimSpace_append_space (s : string) :
  strings.TrimSpace (s ++ " ") = strings.TrimSpace s.
Proof.
  unfold strings.TrimSpace.
  rewrite TrimLeft_before_space.
  destruct (String.eqb_spec (strings.TrimLeft s) "") as [E|_].
  - now rewrite E.
  - rewrite !TrimRight_unfold, rev_append. reflexivity.
Qed.

Lemma TrimRight_fixed (s : string) :
  strings.trimBack (strings.rev s) = strings.rev s -> strings.TrimRight s = s.
Proof.
  intros H. rewrite TrimRight_unfold, H. apply rev_involutive.
Qed.

(** A text that begins and ends with a double quote is left as it is. *)
Lemma TrimSpace_quoted (p : string) :
  strings.TrimSpace (dquote ++ p ++ dquote) = dquote ++ p ++ dquote.
Proof.
  unfold strings.TrimSpace, dquote.
  change (String "034" "" ++ ?x) with (String "034" x).
  rewrite TrimLeft_quote.
  apply TrimRight_fixed.
  cbn [strings.rev]. rewrite rev_append. cbn [strings.rev String.append].
  apply trimBack_quote.
Qed.

Lemma TrimSpace_keep (p t : string) :
  t <> "" -> strings.trimBack (strings.rev t) = strings.rev t ->
  strings.TrimSpace (dquote ++ p ++ dquote ++ " " ++ t)
  = dquote ++ p ++ dquote ++ " " ++ t.
Proof.
  intros Hne Hfix.
  unfold strings.TrimSpace. unfold dquote at 1 3.
  change (String "034" "" ++ ?x) with (String "034" x).
  rewrite TrimLeft_quote.
  apply TrimRight_fixed.
  assert (E : String "034" (p ++ dquote ++ " " ++ t)
              = (dquote ++ p ++ dquote) ++ String " " t).
  { unfold dquote. cbn [String.append]. now rewrite !append_assoc. }
  rewrite E, rev_append. cbn [strings.rev].
  rewrite append_assoc. cbn [String.append].
  rewrite trimBack_before_space, Hfix.
  destruct (String.eqb_spec (strings.rev t) "") as [E0|_]; [|reflexivity].
  elim Hne. now apply rev_empty.
Qed.

(** Trimmed text that is not empty stays as it is behind a quoted program
    and a space. *)
Lemma TrimSpace_quoted_rest (p s : string) :
  strings.TrimSpace s <> "" ->
  strings.TrimSpace (dquote ++ p ++ dquote ++ " " ++ strings.TrimSpace s)
  = dquote ++ p ++ dquote ++ " " ++ strings.TrimSpace s.
Proof.
  intros Hne. apply TrimSpace_keep; [exact Hne|].
  unfold strings.TrimSpace. rewrite TrimRight_unfold, rev_involutive.
  apply trimFront_idempotent.
Qed.

Lemma quoteStep (args arg : string) :
  (if (0 <=? strings.IndexRune arg " ")%Z
   then args ++ dquote ++ arg ++ dquote ++ " "
   else args ++ arg ++ " ") = args ++ quoteArg arg ++ " ".
Proof.
  unfold quoteArg. destruct (0 <=? strings.IndexRune arg " ")%Z;
    [|reflexivity].
  now rewrite !append_assoc.
Qed.

Lemma fold_quote_map (arguments : list string) (acc : string) :
  fold_left
    (fun args arg =>
       if (0 <=? strings.IndexRune arg " ")%Z
       then args ++ dquote ++ arg ++ dquote ++ " "
       else args ++ arg ++ " ") arguments acc
  = fold_left (fun f d => f ++ d ++ " ") (map quoteArg arguments) acc.
Proof.
  revert acc. induction arguments as [|a l IH]; intros acc; [reflexivity|].
  cbn [fold_left map]. rewrite quoteStep. apply IH.
Qed.

Lemma fold_quote (arguments : list string) :
  fold_left
    (fun args arg =>
       if (0 <=? strings.IndexRune arg " ")%Z
       then args ++ dquote ++ arg ++ dquote ++ " "
       else args ++ arg ++ " ") arguments ""
  = match arguments with [] => "" | _ => joinedArgs arguments ++ " " end.
Proof.
  rewrite fold_quote_map, fold_join. unfold joinedArgs.
  destruct arguments; reflexivity.
Qed.

(** The /TR value computed by [TaskMake] is [runText]. *)
Lemma runStep (p : string) (arguments : list string) :
  strings.TrimSpace
    (dquote ++ p ++ dquote ++ " " ++
     strings.TrimSpace
       (fold_left
          (fun args arg =>
             if (0 <=? strings.IndexRune arg " ")%Z
             then args ++ dquote ++ arg ++ dquote ++ " "
             else args ++ arg ++ " ") arguments ""))
  = runText p arguments.
Proof.
  rewrite fold_quote. unfold runText; cbv zeta.
  assert (E : strings.TrimSpace
                match arguments with
                | [] => ""
                | _ => joinedArgs arguments ++ " "
                end = strings.TrimSpace (joinedArgs arguments)).
  { destruct arguments; [reflexivity | apply TrimSpace_append_space]. }
  rewrite E.
  destruct (String.eqb_spec (strings.TrimSpace (joinedArgs arguments)) "")
    as [E0|Hne].
  - rewrite E0.
    replace (dquote ++ p ++ dquote ++ " " ++ "")
      with ((dquote ++ p ++ dquote) ++ " ")
      by now rewrite !append_assoc.
    rewrite TrimSpace_append_space, append_nil_r.
    apply TrimSpace_quoted.
  - now apply TrimSpace_quoted_rest.
Qed.

(** ** [TaskMake] in closed form *)

Lemma markStep (cmds : list string) (taskcreate : TaskCreate) :
  (if MarkDelete taskcreate
   then append (append cmds _Create.preVista) _Create.markDelete
   else cmds) = (cmds ++ markDeleteFlags taskcreate)%list.
Proof.
  unfold markDeleteFlags, append. destruct (MarkDelete taskcreate).
  - now rewrite <- app_assoc.
  - now rewrite app_nil_r.
Qed.

Lemma vector_layout (task : SchTask) (taskcreate : TaskCreate)
      (command : string) (own : bool) (p : string) :
  ((((((((((((((((((((([command]
    ++ flagValue _Create.username (Username taskcreate))
    ++ flagValue _Create.password (Password taskcreate))
    ++ flagValue _Create.schedule (Schedule taskcreate))
    ++ flagValue _Create.modifier (Modifier taskcreate))
    ++ flagList _Create.days (Days taskcreate))
    ++ flagList _Create.months (Months taskcreate))
    ++ flagValue _Create.idletime (Idletime taskcreate))
    ++ flagValue _Create.starttime (Starttime taskcreate))
    ++ flagValue _Create.interval (Interval taskcreate))
    ++ flagValue _Create.endtime (Endtime taskcreate))
    ++ flagValue _Create.duration (Duration taskcreate))
    ++ bareFlag _Create.terminate (Terminate taskcreate))
    ++ flagValue _Create.startdate (Startdate taskcreate))
    ++ flagValue _Create.enddate (Enddate taskcreate))
    ++ flagValue _Create.channelName (ChannelName taskcreate))
    ++ bareFlag _Create.noPassword (NoPassword taskcreate))
    ++ bareFlag _Create.force (Force taskcreate))
    ++ flagValue _Create.level (Level taskcreate))
    ++ flagValue _Create.delaytime (Delaytime taskcreate))
    ++ [_Create.taskname; ownName task (Taskname taskcreate) own;
        _Create.taskrun; runText p (Arguments taskcreate)])
    ++ markDeleteFlags taskcreate)%list
  = layout task taskcreate command own p.
Proof.
  unfold layout, options, beforeDays, afterMonths.
  repeat rewrite <- app_assoc. cbn [app].
  repeat rewrite <- app_assoc. reflexivity.
Qed.

(** What [TaskMake] does, for every input. *)
Lemma TaskMake_closed (w : World) (task : SchTask) (taskcreate : TaskCreate)
      (command : string) (own : bool) :
  TaskMake w task taskcreate command own =
  if nonEmpty (Taskrun taskcreate) then
    let v := layout task taskcreate command own (Taskrun taskcreate) in
    (if Debug w then [Println "Commands:" v] else [], Returns v)
  else
    match filepath_Abs w (filepath_Dir w (os_Args0 w)) with
    | (_, Some msg) => ([], Fatal msg)
    | (dir, None) =>
        let v := layout task taskcreate command own
                        (path_Join w dir (getCurrExe w)) in
        (if Debug w then [Println "Commands:" v] else [], Returns v)
    end.
Proof.
  unfold TaskMake. cbv zeta.
  rewrite !valueStep, !bareStep, !listStep.
  assert (vector : forall p,
    (append
       (append
          (append
             (append
                (((((((((((((((((((append [] command
                  ++ flagValue _Create.username (Username taskcreate))
                  ++ flagValue _Create.password (Password taskcreate))
                  ++ flagValue _Create.schedule (Schedule taskcreate))
                  ++ flagValue _Create.modifier (Modifier taskcreate))
                  ++ flagList _Create.days (Days taskcreate))
                  ++ flagList _Create.months (Months taskcreate))
                  ++ flagValue _Create.idletime (Idletime taskcreate))
                  ++ flagValue _Create.starttime (Starttime taskcreate))
                  ++ flagValue _Create.interval (Interval taskcreate))
                  ++ flagValue _Create.endtime (Endtime taskcreate))
                  ++ flagValue _Create.duration (Duration taskcreate))
                  ++ bareFlag _Create.terminate (Terminate taskcreate))
                  ++ flagValue _Create.startdate (Startdate taskcreate))
                  ++ flagValue _Create.enddate (Enddate taskcreate))
                  ++ flagValue _Create.channelName (ChannelName taskcreate))
                  ++ bareFlag _Create.noPassword (NoPassword taskcreate))
                  ++ bareFlag _Create.force (Force taskcreate))
                  ++ flagValue _Create.level (Level taskcreate))
                  ++ flagValue _Create.delaytime (Delaytime taskcreate))
                _Create.taskname)
             (if own then (prefix task ++ Taskname taskcreate)%string
              else Taskname taskcreate))
          _Create.taskrun)
       (runText p (Arguments taskcreate))
     ++ markDeleteFlags taskcreate)%list
    = layout task taskcreate command own p).
  { intros p. rewrite <- vector_layout. unfold append, ownName.
    repeat rewrite <- app_assoc. reflexivity. }
  unfold nonEmpty.
  destruct (String.eqb (Taskrun taskcreate) "") eqn:E; cbn [negb].
  - unfold getCurrDir.
    destruct (filepath_Abs w (filepath_Dir w (os_Args0 w))) as [dir [msg|]].
    + reflexivity.
    + cbn [bind ret fatal app].
      rewrite runStep, markStep, vector.
      destruct (Debug w); reflexivity.
  - cbn [bind ret app]. rewrite runStep, markStep, vector.
    destruct (Debug w); reflexivity.
Qed.

(** ** The scanner loop of [Query] in closed form *)

Lemma Split_cons (s : string) (sep : ascii) :
  exists piece pieces, strings.Split s sep = piece :: pieces.
Proof.
  induction s as [|c s [piece [pieces IH]]]; simpl.
  - now exists "", [].
  - destruct (Ascii.eqb c sep); [now eexists; eexists|].
    rewrite IH. now eexists; eexists.
Qed.

Lemma queryLine_closed (w : World) (task : SchTask) (name : string)
      (taskList : list Task) (text : string) :
  queryLine w task name taskList text =
  let tx := unquote text in
  if isHeader task tx then ret taskList
  else if passes w name tx then
         if threeFields tx then ret (taskList ++ [record tx])%list
         else panic
       else ret taskList.
Proof.
  unfold queryLine, isHeader, passes, threeFields, record, field, unquote.
  cbv zeta.
  set (tx := strings.RemoveAll text "034").
  destruct (compatibility task && strings.HasPrefix tx "TaskName");
    [reflexivity|].
  destruct (Split_cons tx ",") as [f0 [fs E]]. rewrite E.
  cbn [index nth_error bind ret nth app].
  destruct (String.eqb name "*" || String.eqb name "" ||
            strings.Contains (strings_ToLower w (strings.TrimSpace f0))
                             (strings_ToLower w name)); [|reflexivity].
  destruct fs as [|f1 [|f2 fs]]; reflexivity.
Qed.

Lemma queryLoop_closed (w : World) (task : SchTask) (name : string)
      (lines : list string) (taskList : list Task) :
  queryLoop w task name taskList lines =
  let reached :=
    filter (passes w name)
           (filter (fun tx => negb (isHeader task tx)) (map unquote lines)) in
  if forallb threeFields reached
  then ret (taskList ++ map record reached)%list
  else panic.
Proof.
  revert taskList. induction lines as [|text rest IH]; intros taskList.
  - simpl. now rewrite app_nil_r.
  - cbn [queryLoop]. rewrite queryLine_closed. cbv zeta.
    cbn [map filter].
    destruct (isHeader task (unquote text)); cbn [negb].
    + cbn [bind ret]. rewrite IH. cbv zeta.
      destruct (forallb threeFields _); reflexivity.
    + cbn [filter]. destruct (passes w name (unquote text)).
      * cbn [forallb map]. destruct (threeFields (unquote text)).
        -- cbn [bind ret andb]. rewrite IH. cbv zeta.
           destruct (forallb threeFields _); [|reflexivity].
           cbn [app]. now rewrite <- app_assoc.
        -- reflexivity.
      * cbn [bind ret]. rewrite IH. cbv zeta.
        destruct (forallb threeFields _); reflexivity.
Qed.

(** What [Query] does, for every input. *)
Lemma Query_closed (w : World) (task : SchTask) (name : string) (own : bool) :
  Query w task name own =
  match CombinedOutput w (bin task) (queryArgs task) with
  | (output, Some _) => ([Exec (bin task) (queryArgs task)], Fatal output)
  | (output, None) =>
      ([Exec (bin task) (queryArgs task)],
       if forallb threeFields
                  (selected w task (queryName task name own) output)
       then Returns (records w task (queryName task name own) output)
       else Panics)
  end.
Proof.
  unfold Query, queryArgs, records, selected. cbv zeta.
  unfold _Query.Command, _Query.format, _Query.formatCSV, _Query.noHeader.
  destruct (compatibility task);
    (unfold exec; cbn [bind];
     match goal with
     | |- context [CombinedOutput w ?b ?a] =>
         destruct (CombinedOutput w b a) as [output [e|]]
     end;
     [reflexivity|];
     cbn [catch bind ret app]; rewrite queryLoop_closed; cbv zeta;
     destruct (forallb threeFields _); reflexivity).
Qed.

(** ** The argument vector of [TaskMake] *)

Lemma TaskMake_resolved (w : World) (task : SchTask) (taskcreate : TaskCreate)
      (command : string) (own : bool) :
  resolves w taskcreate ->
  TaskMake w task taskcreate command own =
  let v := layout task taskcreate command own (program w taskcreate) in
  (if Debug w then [Println "Commands:" v] else [], Returns v).
Proof.
  intros H. rewrite TaskMake_closed. unfold program, nonEmpty.
  destruct (String.eqb_spec (Taskrun taskcreate) "") as [E|_]; cbn [negb];
    [|reflexivity].
  destruct H as [H|H]; [contradiction|].
  destruct (filepath_Abs w (filepath_Dir w (os_Args0 w))) as [dir err].
  cbn [snd] in H. subst err. reflexivity.
Qed.

Lemma TaskMake_unresolved (w : World) (task : SchTask)
      (taskcreate : TaskCreate) (command : string) (own : bool) (msg : string) :
  Taskrun taskcreate = "" ->
  snd (filepath_Abs w (filepath_Dir w (os_Args0 w))) = Some msg ->
  TaskMake w task taskcreate command own = ([], Fatal msg).
Proof.
  intros E H. rewrite TaskMake_closed, E. cbn [nonEmpty String.eqb negb].
  destruct (filepath_Abs w (filepath_Dir w (os_Args0 w))) as [dir err].
  cbn [snd] in H. now subst err.
Qed.

Lemma TaskMake_no_invocation (w : World) (task : SchTask)
      (taskcreate : TaskCreate) (command : string) (own : bool) :
  filter isExec (trace (TaskMake w task taskcreate command own)) = [].
Proof.
  rewrite TaskMake_closed.
  destruct (nonEmpty (Taskrun taskcreate)).
  - cbv zeta. now destruct (Debug w).
  - destruct (filepath_Abs w (filepath_Dir w (os_Args0 w))) as [dir [msg|]];
      [reflexivity|].
    cbv zeta. now destruct (Debug w).
Qed.

(** C1 (as amended).  Whenever the program to run can be named ([Taskrun]
    is not empty, or the directory of the running executable is found),
    [TaskMake] returns the vector that starts with the sub-command and goes
    on, in this order, with /RU, /RP, /SC, /MO and their values, /D and /M
    with their joined lists, /I, /ST, /RI, /ET, /DU and their values, /K,
    /SD, /ED, /EC and their values, /NP, /F, /RL and /DELAY with their
    values, then always /TN with the task name and /TR with the run text,
    and last /V1 /Z for [MarkDelete]; a flag with a value is present exactly
    when the value is not empty, a bare flag exactly when its field is
    true. *)
Theorem TaskMake_vector (w : World) (task : SchTask) (taskcreate : TaskCreate)
        (command : string) (own : bool) :
  resolves w taskcreate ->
  outcome (TaskMake w task taskcreate command own) =
  Returns
    (command ::
     flagValue "/RU" (Username taskcreate) ++
     flagValue "/RP" (Password taskcreate) ++
     flagValue "/SC" (Schedule taskcreate) ++
     flagValue "/MO" (Modifier taskcreate) ++
     flagList "/D" (Days taskcreate) ++
     flagList "/M" (Months taskcreate) ++
     flagValue "/I" (Idletime taskcreate) ++
     flagValue "/ST" (Starttime taskcreate) ++
     flagValue "/RI" (Interval taskcreate) ++
     flagValue "/ET" (Endtime taskcreate) ++
     flagValue "/DU" (Duration taskcreate) ++
     bareFlag "/K" (Terminate taskcreate) ++
     flagValue "/SD" (Startdate taskcreate) ++
     flagValue "/ED" (Enddate taskcreate) ++
     flagValue "/EC" (ChannelName taskcreate) ++
     bareFlag "/NP" (NoPassword taskcreate) ++
     bareFlag "/F" (Force taskcreate) ++
     flagValue "/RL" (Level taskcreate) ++
     flagValue "/DELAY" (Delaytime taskcreate) ++
     ["/TN"; ownName task (Taskname taskcreate) own;
      "/TR"; runText (program w taskcreate) (Arguments taskcreate)] ++
     (if MarkDelete taskcreate then ["/V1"; "/Z"] else []))%list.
Proof.
  intros H. rewrite (TaskMake_resolved w task taskcreate command own H).
  cbv zeta. unfold outcome. cbn [snd]. f_equal.
  rewrite <- vector_layout. unfold markDeleteFlags.
  cbn [app]. repeat rewrite <- app_assoc. reflexivity.
Qed.

Lemma TaskMake_vector_witness :
  outcome (TaskMake calmWorld (New false) testTask "/CREATE" true) =
  Returns
    ["/CREATE"; "/SC"; "DAILY"; "/ST"; "12:00"; "/RI"; "0"; "/ET"; "12:01";
     "/K"; "/TN"; "go-wintask-Test"; "/TR";
     dquote ++ "notepad.exe" ++ dquote].
Proof.
  apply (TaskMake_vector calmWorld (New false) testTask "/CREATE" true).
  left. discriminate.
Defined.

(** C1, as it is worded, fails: with an empty [Taskrun] on a host where
    [filepath.Abs] fails, [TaskMake] ends the process and returns nothing. *)
Lemma TaskMake_vector_counterexample :
  outcome (TaskMake lostWorld (New false) emptyTask "/CREATE" true) =
  Fatal "getwd: no such file or directory" /\
  ~ (exists v,
       outcome (TaskMake lostWorld (New false) emptyTask "/CREATE" true) =
       Returns v).
Proof.
  split; [reflexivity|]. intros [v H]. discriminate H.
Qed.

(** C5 (as amended).  Two calls of [TaskMake] with equal configurations
    whose [Taskrun] is not empty, equal sub-commands and equal own flags
    return the same vector on any two hosts and for any two receivers,
    provided that, when own is set, the two receivers have the same prefix
    (as any two receivers made by [New] have): the vector depends on these
    inputs and on the prefix only, not on the world and not on the binary
    or the compatibility mode of the receiver. *)
Theorem TaskMake_same_vector (w1 w2 : World) (task1 task2 : SchTask)
        (taskcreate : TaskCreate) (command : string) (own : bool) :
  Taskrun taskcreate <> "" ->
  (own = true -> prefix task1 = prefix task2) ->
  exists v,
    outcome (TaskMake w1 task1 taskcreate command own) = Returns v /\
    outcome (TaskMake w2 task2 taskcreate command own) = Returns v.
Proof.
  intros H Hp.
  exists (layout task1 taskcreate command own (Taskrun taskcreate)).
  assert (P : forall w, program w taskcreate = Taskrun taskcreate).
  { intros w. unfold program.
    now destruct (String.eqb_spec (Taskrun taskcreate) ""). }
  assert (L : layout task2 taskcreate command own (Taskrun taskcreate)
              = layout task1 taskcreate command own (Taskrun taskcreate)).
  { unfold layout, ownName. destruct own; [|reflexivity].
    now rewrite (Hp eq_refl). }
  split.
  - rewrite (TaskMake_resolved w1) by now left. now rewrite P.
  - rewrite (TaskMake_resolved w2) by now left. now rewrite P, L.
Qed.

Lemma TaskMake_same_vector_witness :
  exists v,
    outcome (TaskMake calmWorld (New false) testTask "/CHANGE" true)
    = Returns v /\
    outcome (TaskMake debugWorld (New true) testTask "/CHANGE" true)
    = Returns v.
Proof.
  apply (TaskMake_same_vector calmWorld debugWorld (New false) (New true)
                              testTask "/CHANGE" true).
  - discriminate.
  - reflexivity.
Defined.

(** C5, as it is worded, fails: with own set, equal configurations,
    sub-commands and own flags give different vectors for a receiver made
    by [New] and for the zero value of [SchTask], on one and the same
    host; the element after /TN differs. *)
Lemma TaskMake_same_vector_counterexample :
  Taskrun testTask <> "" /\
  outcome (TaskMake calmWorld (New false) testTask "/CHANGE" true) =
  Returns ["/CHANGE"; "/SC"; "DAILY"; "/ST"; "12:00"; "/RI"; "0"; "/ET";
           "12:01"; "/K"; "/TN"; "go-wintask-Test"; "/TR";
           dquote ++ "notepad.exe" ++ dquote] /\
  outcome (TaskMake calmWorld zeroTask testTask "/CHANGE" true) =
  Returns ["/CHANGE"; "/SC"; "DAILY"; "/ST"; "12:00"; "/RI"; "0"; "/ET";
           "12:01"; "/K"; "/TN"; "Test"; "/TR";
           dquote ++ "notepad.exe" ++ dquote] /\
  ~ (exists v,
       outcome (TaskMake calmWorld (New false) testTask "/CHANGE" true)
       = Returns v /\
       outcome (TaskMake calmWorld zeroTask testTask "/CHANGE" true)
       = Returns v).
Proof.
  split; [discriminate|]. split; [reflexivity|]. split; [reflexivity|].
  intros [v [H1 H2]]. rewrite <- H2 in H1. discriminate H1.
Qed.

(** ** The operations in closed form *)

Lemma invoke_closed (w : World) (b : string) (args : list string) :
  invoke w b args =
  ([Exec b args],
   match CombinedOutput w b args with
   | (output, Some _) => Fatal output
   | (output, None) => Returns output
   end).
Proof.
  unfold invoke, exec. cbn [bind].
  now destruct (CombinedOutput w b args) as [output [e|]].
Qed.

Lemma trace_bind {A B} (m : M A) (k : A -> M B) :
  trace (bind m k) =
  (trace m ++ match outcome m with
              | Returns a => trace (k a)
              | _ => []
              end)%list.
Proof.
  destruct m as [t [a|msg|]]; cbn [bind trace outcome fst snd].
  - now destruct (k a).
  - now rewrite app_nil_r.
  - now rewrite app_nil_r.
Qed.

Lemma invocations_bind {A B} (m : M A) (k : A -> M B) :
  invocations (bind m k) =
  invocations m + match outcome m with
                  | Returns a => invocations (k a)
                  | _ => 0
                  end.
Proof.
  unfold invocations. rewrite trace_bind, filter_app, length_app.
  now destruct (outcome m).
Qed.

Lemma invocations_invoke (w : World) (b : string) (args : list string) :
  invocations (invoke w b args) = 1.
Proof. now rewrite invoke_closed. Qed.

Lemma Create_closed (w : World) (task : SchTask) (taskcreate : TaskCreate) :
  Create w task taskcreate =
  (cmds <- TaskMake w task taskcreate "/CREATE" true ;;
   if Debug w then ret dbgMessage else invoke w (bin task) cmds).
Proof. reflexivity. Qed.

Lemma Change_closed (w : World) (task : SchTask) (taskcreate : TaskCreate)
      (own : bool) :
  Change w task taskcreate own =
  (cmds <- TaskMake w task taskcreate "/CHANGE" own ;;
   if Debug w then ret dbgMessage else invoke w (bin task) cmds).
Proof. reflexivity. Qed.

Lemma Delete_closed (w : World) (task : SchTask) (taskname : string)
      (own force : bool) :
  Delete w task taskname own force =
  if Debug w then ret dbgMessage
  else invoke w (bin task)
              ("/DELETE" :: "/TN" :: ownName task taskname own
                 :: bareFlag "/F" force).
Proof. unfold Delete. now destruct (Debug w), force. Qed.

Lemma Run_closed (w : World) (task : SchTask) (taskName : string)
      (own : bool) :
  Run w task taskName own =
  if Debug w then ret dbgMessage
  else invoke w (bin task) ["/RUN"; "/TN"; ownName task taskName own; "/I"].
Proof. reflexivity. Qed.

Lemma End_closed (w : World) (task : SchTask) (taskName : string)
      (own : bool) :
  End_ w task taskName own =
  if Debug w then ret dbgMessage
  else invoke w (bin task) ["/END"; "/TN"; ownName task taskName own].
Proof. reflexivity. Qed.

Lemma ShowSid_closed (w : World) (task : SchTask) (taskName : string)
      (own : bool) :
  ShowSid w task taskName own =
  if Debug w then ret dbgMessage
  else invoke w (bin task)
              ["/SHOWSID"; "/TN"; "\" ++ ownName task taskName own].
Proof. reflexivity. Qed.

Lemma ShowHelp_closed (w : World) (task : SchTask) (command : string) :
  ShowHelp w task command = invoke w (bin task) [command; "/?"].
Proof. reflexivity. Qed.

Lemma invocations_gated (w : World) (b : string) (args : list string) :
  invocations (if Debug w then ret dbgMessage else invoke w b args) <= 1.
Proof.
  destruct (Debug w); [cbn; lia | rewrite invocations_invoke; lia].
Qed.

Lemma invocations_TaskMake (w : World) (task : SchTask)
      (taskcreate : TaskCreate) (command : string) (own : bool) :
  invocations (TaskMake w task taskcreate command own) = 0.
Proof. unfold invocations. now rewrite TaskMake_no_invocation. Qed.

Lemma invocations_built (w : World) (task : SchTask)
      (taskcreate : TaskCreate) (command : string) (own : bool) :
  invocations
    (cmds <- TaskMake w task taskcreate command own ;;
     if Debug w then ret dbgMessage else invoke w (bin task) cmds) <= 1.
Proof.
  rewrite invocations_bind, invocations_TaskMake.
  destruct (outcome (TaskMake w task taskcreate command own));
    [apply invocations_gated | lia | lia].
Qed.

Lemma invocations_Query (w : World) (task : SchTask) (taskname : string)
      (own : bool) :
  invocations (Query w task taskname own) = 1.
Proof.
  rewrite Query_closed.
  now destruct (CombinedOutput w (bin task) (queryArgs task)) as [output [e|]].
Qed.

(** C7.  Each public operation runs the external binary at most once in a
    call, whatever the binary answers: there is no second invocation, also
    not after a failure. *)
Theorem at_most_one_invocation (w : World) (task : SchTask)
        (taskcreate : TaskCreate) (taskname command : string)
        (own force : bool) :
  invocations (Create w task taskcreate) <= 1 /\
  invocations (Delete w task taskname own force) <= 1 /\
  invocations (Query w task taskname own) <= 1 /\
  invocations (Change w task taskcreate own) <= 1 /\
  invocations (Run w task taskname own) <= 1 /\
  invocations (End_ w task taskname own) <= 1 /\
  invocations (ShowSid w task taskname own) <= 1 /\
  invocations (ShowHelp w task command) <= 1.
Proof.
  repeat split.
  - rewrite Create_closed. apply invocations_built.
  - rewrite Delete_closed. apply invocations_gated.
  - rewrite invocations_Query. lia.
  - rewrite Change_closed. apply invocations_built.
  - rewrite Run_closed. apply invocations_gated.
  - rewrite End_closed. apply invocations_gated.
  - rewrite ShowSid_closed. apply invocations_gated.
  - rewrite ShowHelp_closed, invocations_invoke. lia.
Qed.

(** A failed invocation ends the process at once, with the output of the
    binary as the message. *)
Lemma invoke_failure (w : World) (b : string) (args : list string)
      (output msg : string) :
  CombinedOutput w b args = (output, Some msg) ->
  invoke w b args = ([Exec b args], Fatal output).
Proof. intros H. now rewrite invoke_closed, H. Qed.

(** ** The lists of days and months *)

(** C6 (as amended).  In the vector of [TaskMake], /D (and likewise /M)
    stands right after the options that precede it, followed by one value,
    the elements of the list joined by single commas, exactly when that
    joined text is not empty; the flag and the value are left out when the
    list is empty and also when it holds one empty string. *)
Theorem TaskMake_lists (w : World) (task : SchTask) (taskcreate : TaskCreate)
        (command : string) (own : bool) :
  resolves w taskcreate ->
  outcome (TaskMake w task taskcreate command own) =
  Returns
    (beforeDays taskcreate command ++
     (if emptyJoin (Days taskcreate) then []
      else ["/D"; String.concat "," (Days taskcreate)]) ++
     (if emptyJoin (Months taskcreate) then []
      else ["/M"; String.concat "," (Months taskcreate)]) ++
     afterMonths taskcreate ++
     ["/TN"; ownName task (Taskname taskcreate) own;
      "/TR"; runText (program w taskcreate) (Arguments taskcreate)] ++
     markDeleteFlags taskcreate)%list.
Proof.
  intros H. rewrite (TaskMake_resolved w task taskcreate command own H).
  cbv zeta. unfold outcome. cbn [snd]. f_equal.
  unfold layout, options. repeat rewrite <- app_assoc.
  reflexivity.
Qed.

Lemma TaskMake_lists_witness :
  outcome (TaskMake calmWorld (New false)
                    (listTask ["MON"; "WED"] ["JAN"] []) "/CREATE" true) =
  Returns
    ["/CREATE"; "/D"; "MON,WED"; "/M"; "JAN"; "/TN"; "go-wintask-Test";
     "/TR"; dquote ++ "notepad.exe" ++ dquote].
Proof.
  apply (TaskMake_lists calmWorld (New false)
                        (listTask ["MON"; "WED"] ["JAN"] []) "/CREATE" true).
  left. discriminate.
Defined.

(** C6, as it is worded, fails: a [Days] list that holds one empty string
    is not empty, yet the vector has no /D. *)
Lemma TaskMake_lists_counterexample :
  Days (listTask [""] [] []) <> [] /\
  outcome (TaskMake calmWorld (New false) (listTask [""] [] [])
                    "/CREATE" true) =
  Returns ["/CREATE"; "/TN"; "go-wintask-Test"; "/TR";
           dquote ++ "notepad.exe" ++ dquote] /\
  ~ In "/D" ["/CREATE"; "/TN"; "go-wintask-Test"; "/TR";
             dquote ++ "notepad.exe" ++ dquote].
Proof.
  split; [discriminate|]. split; [reflexivity|].
  cbn. intros H. repeat destruct H as [H|H]; try discriminate H; exact H.
Qed.

(** ** The value after /TR *)




(** ** The prefix of the tool's own tasks *)

Lemma trace_built (w : World) (task : SchTask) (taskcreate : TaskCreate)
      (command : string) (own : bool) :
  Debug w = false -> resolves w taskcreate ->
  trace (cmds <- TaskMake w task taskcreate command own ;;
         if Debug w then ret dbgMessage else invoke w (bin task) cmds) =
  [Exec (bin task) (layout task taskcreate command own (program w taskcreate))].
Proof.
  intros D H. rewrite trace_bind, (TaskMake_resolved _ _ _ _ _ H), D.
  cbv zeta. cbn [trace outcome fst snd app]. now rewrite invoke_closed.
Qed.

Lemma trace_gated (w : World) (b : string) (args : list string) :
  Debug w = false ->
  trace (if Debug w then ret dbgMessage else invoke w b args) = [Exec b args].
Proof. intros D. now rewrite D, invoke_closed. Qed.

(** C2 (as amended).  With a receiver made by [New], outside debug mode:
    [Create] always, and [Change], [Delete], [Run] and [End] called with
    own, hand the binary a vector in which /TN is followed by "go-wintask-"
    put before the caller's name; [ShowSid] with own puts a backslash before
    that prefixed name.  [Query] hands the binary no task name at all: its
    vector is fixed, and with own the prefixed name (or the bare prefix for
    the name "*") only selects the lines of the output. *)
Theorem own_prefix (w : World) (com : bool) (taskcreate : TaskCreate)
        (taskname : string) (force : bool) :
  Debug w = false -> resolves w taskcreate ->
  trace (Create w (New com) taskcreate) =
    [Exec "SCHTASKS"
          (options taskcreate "/CREATE" ++
           ["/TN"; ("go-wintask-" ++ Taskname taskcreate)%string; "/TR";
            runText (program w taskcreate) (Arguments taskcreate)] ++
           markDeleteFlags taskcreate)%list] /\
  trace (Change w (New com) taskcreate true) =
    [Exec "SCHTASKS"
          (options taskcreate "/CHANGE" ++
           ["/TN"; ("go-wintask-" ++ Taskname taskcreate)%string; "/TR";
            runText (program w taskcreate) (Arguments taskcreate)] ++
           markDeleteFlags taskcreate)%list] /\
  trace (Delete w (New com) taskname true force) =
    [Exec "SCHTASKS"
          ("/DELETE" :: "/TN" :: ("go-wintask-" ++ taskname)
             :: (if force then ["/F"] else []))] /\
  trace (Run w (New com) taskname true) =
    [Exec "SCHTASKS" ["/RUN"; "/TN"; "go-wintask-" ++ taskname; "/I"]] /\
  trace (End_ w (New com) taskname true) =
    [Exec "SCHTASKS" ["/END"; "/TN"; "go-wintask-" ++ taskname]] /\
  trace (ShowSid w (New com) taskname true) =
    [Exec "SCHTASKS" ["/SHOWSID"; "/TN"; "\" ++ "go-wintask-" ++ taskname]] /\
  trace (Query w (New com) taskname true) =
    [Exec "SCHTASKS"
          (if com then ["/QUERY"; "/FO"; "CSV"]
           else ["/QUERY"; "/FO"; "CSV"; "/NH"])] /\
  queryName (New com) taskname true =
    "go-wintask-" ++ (if String.eqb taskname "*" then "" else taskname).
Proof.
  intros D H. repeat split.
  - rewrite Create_closed. now rewrite trace_built.
  - rewrite Change_closed. now rewrite trace_built.
  - rewrite Delete_closed. now rewrite trace_gated.
  - rewrite Run_closed. now rewrite trace_gated.
  - rewrite End_closed. now rewrite trace_gated.
  - rewrite ShowSid_closed. now rewrite trace_gated.
  - rewrite Query_closed. unfold queryArgs. cbn [New compatibility bin].
    now destruct (CombinedOutput w taskerFile _) as [output [e|]].
Qed.

Lemma own_prefix_witness :
  trace (Create calmWorld (New false) testTask) =
    [Exec "SCHTASKS"
          ["/CREATE"; "/SC"; "DAILY"; "/ST"; "12:00"; "/RI"; "0"; "/ET";
           "12:01"; "/K"; "/TN"; "go-wintask-Test"; "/TR";
           dquote ++ "notepad.exe" ++ dquote]] /\
  trace (Change calmWorld (New false) testTask true) =
    [Exec "SCHTASKS"
          ["/CHANGE"; "/SC"; "DAILY"; "/ST"; "12:00"; "/RI"; "0"; "/ET";
           "12:01"; "/K"; "/TN"; "go-wintask-Test"; "/TR";
           dquote ++ "notepad.exe" ++ dquote]] /\
  trace (Delete calmWorld (New false) "Test" true true) =
    [Exec "SCHTASKS" ["/DELETE"; "/TN"; "go-wintask-Test"; "/F"]] /\
  trace (Run calmWorld (New false) "Test" true) =
    [Exec "SCHTASKS" ["/RUN"; "/TN"; "go-wintask-Test"; "/I"]] /\
  trace (End_ calmWorld (New false) "Test" true) =
    [Exec "SCHTASKS" ["/END"; "/TN"; "go-wintask-Test"]] /\
  trace (ShowSid calmWorld (New false) "Test" true) =
    [Exec "SCHTASKS" ["/SHOWSID"; "/TN"; "\go-wintask-Test"]] /\
  trace (Query calmWorld (New false) "Test" true) =
    [Exec "SCHTASKS" ["/QUERY"; "/FO"; "CSV"; "/NH"]] /\
  queryName (New false) "Test" true = "go-wintask-Test".
Proof.
  apply (own_prefix calmWorld false testTask "Test" true).
  - reflexivity.
  - left. discriminate.
Defined.

(** C2, as it is worded, fails for [Query]: the prefixed name is not placed
    in the vector handed to the binary, and for the name "*" the name used
    is not the prefix followed by that name. *)
Lemma own_prefix_counterexample :
  ~ namePlaced (Query calmWorld (New false) "Test" true)
               ("go-wintask-" ++ "Test") /\
  queryName (New false) "*" true <> "go-wintask-" ++ "*".
Proof.
  split; [|discriminate].
  intros [b [args [HE HI]]]. cbn in HE.
  destruct HE as [HE|[]]. inversion HE; subst.
  cbn in HI. repeat destruct HI as [HI|HI]; try discriminate HI; exact HI.
Qed.

(** ** The records of [Query] *)

Lemma forallb_threeFields (l : list string) :
  (forall tx, In tx l -> 3 <= List.length (strings.Split tx ",")) ->
  forallb threeFields l = true.
Proof.
  intros H. apply forallb_forall. intros tx Htx. unfold threeFields.
  apply Nat.leb_le. now apply H.
Qed.

(** C3 (as amended).  When the query invocation succeeds with [output],
    and every line that reaches the field accesses has three
    comma-separated fields, [Query] returns, in the order of the lines,
    one record for every scanned line that, once its double quotes are
    removed, is not a header line skipped in compatibility mode (a line
    starting with TaskName) and passes the name filter; the name, date and
    status of the record are the trimmed first, second and third fields of
    that line.  A line passes when the filter name is "*" or empty, or when
    the lowered first field contains the lowered filter name. *)
Theorem Query_records (w : World) (task : SchTask) (taskname : string)
        (own : bool) (output : string) :
  CombinedOutput w (bin task) (queryArgs task) = (output, None) ->
  let filter_name := queryName task taskname own in
  let lines :=
    filter (passes w filter_name)
           (filter (fun tx => negb (compatibility task &&
                                    strings.HasPrefix tx "TaskName"))
                   (map (fun text => strings.RemoveAll text "034")
                        (bufio.ScanLines output))) in
  (forall tx, In tx lines -> 3 <= List.length (strings.Split tx ",")) ->
  outcome (Query w task taskname own) =
  Returns
    (map (fun tx =>
            {| name := strings.TrimSpace (nth 0 (strings.Split tx ",") "");
               datetime := strings.TrimSpace (nth 1 (strings.Split tx ",") "");
               status := strings.TrimSpace (nth 2 (strings.Split tx ",") "")
            |}) lines).
Proof.
  intros E filter_name lines H.
  rewrite Query_closed, E. cbn [outcome snd].
  change (selected w task (queryName task taskname own) output) with lines.
  now rewrite (forallb_threeFields lines H).
Qed.

Lemma Query_records_witness :
  outcome (Query (answering listing) (New true) "*" false) =
  Returns [ {| name := "\go-wintask-Test"; datetime := "N/A";
               status := "Ready" |};
            {| name := "\Backup"; datetime := "N/A";
               status := "Disabled" |} ].
Proof.
  apply (Query_records (answering listing) (New true) "*" false listing).
  - reflexivity.
  - cbn. intros tx [H|[H|[]]]; subst tx; cbn; lia.
Defined.

(** C3, as it is worded, fails: in compatibility mode a line that starts
    with TaskName passes the name filter and still yields no record. *)
Lemma Query_records_counterexample :
  outcome (Query (answering listing) (New true) "*" false) <>
  Returns (recordsClaimed (answering listing) "*" listing) /\
  recordsClaimed (answering listing) "*" listing =
  [ {| name := "TaskName"; datetime := "Next Run Time"; status := "Status" |};
    {| name := "\go-wintask-Test"; datetime := "N/A"; status := "Ready" |};
    {| name := "\Backup"; datetime := "N/A"; status := "Disabled" |} ].
Proof. split; [discriminate | reflexivity]. Qed.

(** C4: the loop of [Query] is not total.  On an empty line, on a line
    without a comma and on a line with two fields, each passing the name
    filter, the access to the second or third field is out of range and
    the call panics; the line without a comma does no harm only when the
    filter rejects it. *)
Theorem Query_short_line_panics :
  Query (answering lf) (New false) "*" false =
    ([Exec "SCHTASKS" ["/QUERY"; "/FO"; "CSV"; "/NH"]], Panics) /\
  Query (answering ("INFO: There are no scheduled tasks." ++ lf))
        (New true) "*" true =
    ([Exec "SCHTASKS" ["/QUERY"; "/FO"; "CSV"]], Returns []) /\
  Query (answering ("INFO: There are no scheduled tasks." ++ lf))
        (New true) "*" false =
    ([Exec "SCHTASKS" ["/QUERY"; "/FO"; "CSV"]], Panics) /\
  Query (answering ("\Backup,N/A" ++ lf)) (New false) "" false =
    ([Exec "SCHTASKS" ["/QUERY"; "/FO"; "CSV"; "/NH"]], Panics).
Proof. repeat split. Qed.

(** Whenever the invocation succeeds and a line with fewer than three
    fields reaches the field accesses, [Query] panics. *)
Lemma Query_panics (w : World) (task : SchTask) (taskname : string)
      (own : bool) (output tx : string) :
  CombinedOutput w (bin task) (queryArgs task) = (output, None) ->
  In tx (selected w task (queryName task taskname own) output) ->
  List.length (strings.Split tx ",") < 3 ->
  outcome (Query w task taskname own) = Panics.
Proof.
  intros E Hin Hlen. rewrite Query_closed, E. cbn [outcome snd].
  destruct (forallb threeFields _) eqn:F; [|reflexivity].
  rewrite forallb_forall in F. specialize (F tx Hin).
  unfold threeFields in F. apply Nat.leb_le in F. lia.
Qed.

(** ** Debug mode *)

Lemma outcome_bind_returns {A B} (m : M A) (k : A -> M B) (a : A) :
  outcome m = Returns a -> outcome (bind m k) = outcome (k a).
Proof.
  destruct m as [t o]. cbn [outcome snd]. intros ->.
  cbn [bind]. now destruct (k a).
Qed.

Lemma debug_built (w : World) (task : SchTask) (taskcreate : TaskCreate)
      (command : string) (own : bool) :
  Debug w = true -> resolves w taskcreate ->
  (cmds <- TaskMake w task taskcreate command own ;;
   if Debug w then ret dbgMessage else invoke w (bin task) cmds) =
  ([Println "Commands:"
            (layout task taskcreate command own (program w taskcreate))],
   Returns dbgMessage).
Proof.
  intros D H. rewrite (TaskMake_resolved _ _ _ _ _ H), D. reflexivity.
Qed.

(** C8 (as amended).  In debug mode [Delete], [Run], [End] and [ShowSid]
    do nothing but return the debug message.  [Create] and [Change] first
    build and print the vector and then return the debug message without
    running the binary, provided the program to run can be named; when it
    cannot, [TaskMake] has already ended the process.  [Query] and
    [ShowHelp] run the binary once on every host, in debug mode or not. *)
Theorem debug_mode (w : World) (task : SchTask) (taskcreate : TaskCreate)
        (taskname command : string) (own force : bool) :
  Debug w = true -> resolves w taskcreate ->
  (outcome (Create w task taskcreate) = Returns dbgMessage /\
   invocations (Create w task taskcreate) = 0) /\
  (outcome (Change w task taskcreate own) = Returns dbgMessage /\
   invocations (Change w task taskcreate own) = 0) /\
  Delete w task taskname own force = ([], Returns dbgMessage) /\
  Run w task taskname own = ([], Returns dbgMessage) /\
  End_ w task taskname own = ([], Returns dbgMessage) /\
  ShowSid w task taskname own = ([], Returns dbgMessage) /\
  (forall w', invocations (Query w' task taskname own) = 1) /\
  (forall w', invocations (ShowHelp w' task command) = 1).
Proof.
  intros D H. repeat split.
  - rewrite Create_closed. now rewrite debug_built.
  - rewrite Create_closed. now rewrite debug_built.
  - rewrite Change_closed. now rewrite debug_built.
  - rewrite Change_closed. now rewrite debug_built.
  - rewrite Delete_closed. now rewrite D.
  - rewrite Run_closed. now rewrite D.
  - rewrite End_closed. now rewrite D.
  - rewrite ShowSid_closed. now rewrite D.
  - intros w'. apply invocations_Query.
  - intros w'. rewrite ShowHelp_closed. apply invocations_invoke.
Qed.

Lemma debug_mode_witness :
  (outcome (Create debugWorld (New false) testTask) = Returns dbgMessage /\
   invocations (Create debugWorld (New false) testTask) = 0) /\
  (outcome (Change debugWorld (New false) testTask true)
   = Returns dbgMessage /\
   invocations (Change debugWorld (New false) testTask true) = 0) /\
  Delete debugWorld (New false) "Test" true true = ([], Returns dbgMessage) /\
  Run debugWorld (New false) "Test" true = ([], Returns dbgMessage) /\
  End_ debugWorld (New false) "Test" true = ([], Returns dbgMessage) /\
  ShowSid debugWorld (New false) "Test" true = ([], Returns dbgMessage) /\
  (forall w', invocations (Query w' (New false) "Test" true) = 1) /\
  (forall w', invocations (ShowHelp w' (New false) "/CREATE") = 1).
Proof.
  apply (debug_mode debugWorld (New false) testTask "Test" "/CREATE"
                    true true).
  - reflexivity.
  - left. discriminate.
Defined.

(** In debug mode too, no operation built on [TaskMake] runs the binary,
    whether the program can be named or not. *)
Lemma debug_no_invocation (w : World) (task : SchTask)
      (taskcreate : TaskCreate) (own : bool) :
  Debug w = true ->
  invocations (Create w task taskcreate) = 0 /\
  invocations (Change w task taskcreate own) = 0.
Proof.
  intros D. rewrite Create_closed, Change_closed.
  rewrite !invocations_bind, !invocations_TaskMake, D.
  split.
  - now destruct (outcome (TaskMake w task taskcreate "/CREATE" true)).
  - now destruct (outcome (TaskMake w task taskcreate "/CHANGE" own)).
Qed.

(** C8, as it is worded, fails: in debug mode [Create] with an empty
    [Taskrun], on a host where [filepath.Abs] fails, ends the process in
    [TaskMake] and does not return the debug message. *)
Lemma debug_mode_counterexample :
  Debug lostWorld = true /\
  Create lostWorld (New false) emptyTask =
    ([], Fatal "getwd: no such file or directory") /\
  outcome (Create lostWorld (New false) emptyTask) <> Returns dbgMessage.
Proof. repeat split. discriminate. Qed.

(** ** The own filter of [Query] *)

Lemma In_selected (w : World) (task : SchTask) (filter_name output : string)
      (t : Task) :
  In t (records w task filter_name output) ->
  exists tx, t = record tx /\ passes w filter_name tx = true.
Proof.
  unfold records, selected. rewrite in_map_iff.
  intros [tx [<- Hin]]. apply filter_In in Hin as [_ Hp]. now exists tx.
Qed.

(** C9.  [Query] called with own and the name "*" filters by the bare
    prefix "go-wintask-": the asterisk is dropped, so the records returned
    are those of the lines whose first field contains the prefix, letter
    case aside, and every returned task has such a name.  With own and any
    other name the filter is the prefix put before that name. *)
Theorem Query_own_star (w : World) (com : bool) (taskname : string)
        (tasks : list Task) :
  outcome (Query w (New com) "*" true) = Returns tasks ->
  queryName (New com) "*" true = "go-wintask-" /\
  (taskname <> "*" ->
   queryName (New com) taskname true = "go-wintask-" ++ taskname) /\
  Query w (New com) "*" true = Query w (New com) "go-wintask-" false /\
  tasks =
    map record
        (filter (fun tx =>
                   strings.Contains (strings_ToLower w (field tx 0))
                                    (strings_ToLower w "go-wintask-"))
                (filter (fun tx => negb (isHeader (New com) tx))
                        (map unquote
                             (bufio.ScanLines
                                (fst (CombinedOutput w "SCHTASKS"
                                        (queryArgs (New com)))))))) /\
  (forall t, In t tasks ->
     strings.Contains (strings_ToLower w (name t))
                      (strings_ToLower w "go-wintask-") = true).
Proof.
  intros H.
  assert (R : tasks = records w (New com) "go-wintask-"
                        (fst (CombinedOutput w "SCHTASKS"
                                             (queryArgs (New com))))).
  { rewrite Query_closed in H. cbn [New bin] in H. unfold taskerFile in H.
    destruct (CombinedOutput w "SCHTASKS" (queryArgs (New com)))
      as [output [e|]]; cbn [outcome snd fst] in *; [discriminate H|].
    change (queryName (New com) "*" true) with "go-wintask-" in H.
    destruct (forallb threeFields _); [|discriminate H].
    now inversion H. }
  split; [reflexivity|]. split.
  { intros Hne. unfold queryName. cbn [New prefix].
    now destruct (String.eqb_spec taskname "*"). }
  split; [reflexivity|]. split.
  - exact R.
  - intros t Hin. rewrite R in Hin.
    apply In_selected in Hin as [tx [-> Hp]]. exact Hp.
Qed.

Lemma Query_own_star_witness :
  queryName (New false) "*" true = "go-wintask-" /\
  ("Test" <> "*" -> queryName (New false) "Test" true = "go-wintask-Test") /\
  Query (answering listing) (New false) "*" true
  = Query (answering listing) (New false) "go-wintask-" false /\
  [ {| name := "\go-wintask-Test"; datetime := "N/A"; status := "Ready" |} ]
  = map record
        (filter (fun tx =>
                   strings.Contains (lowerASCII (field tx 0))
                                    (lowerASCII "go-wintask-"))
                (filter (fun tx => negb (isHeader (New false) tx))
                        (map unquote (bufio.ScanLines listing)))) /\
  (forall t,
     In t [ {| name := "\go-wintask-Test"; datetime := "N/A";
               status := "Ready" |} ] ->
     strings.Contains (lowerASCII (name t)) (lowerASCII "go-wintask-")
     = true).
Proof.
  apply (Query_own_star (answering listing) false "Test"
           [ {| name := "\go-wintask-Test"; datetime := "N/A";
                status := "Ready" |} ]).
  reflexivity.
Defined.

(** On the sample listing the own query for "*" leaves out the task that
    the plain query for "*" returns besides the prefixed one. *)
Example Query_own_star_not_all :
  outcome (Query (answering listing) (New false) "*" true) =
  Returns [ {| name := "\go-wintask-Test"; datetime := "N/A";
               status := "Ready" |} ] /\
  outcome (Query (answering listing) (New false) "*" false) =
  Returns [ {| name := "TaskName"; datetime := "Next Run Time";
               status := "Status" |};
            {| name := "\go-wintask-Test"; datetime := "N/A";
               status := "Ready" |};
            {| name := "\Backup"; datetime := "N/A"; status := "Disabled" |} ].
Proof. split; reflexivity. Qed.

(** * Further properties of the package *)

(** ** How the operations end *)

Lemma invoke_fails (w : World) (b : string) (args : list string)
      (out msg : string) :
  CombinedOutput w b args = (out, Some msg) -> failsOnce (invoke w b args) out.
Proof. intros H. unfold failsOnce. now rewrite invoke_closed, H. Qed.

Lemma invoke_returns (w : World) (b : string) (args : list string)
      (out : string) :
  CombinedOutput w b args = (out, None) -> returnsOnce (invoke w b args) out.
Proof. intros H. unfold returnsOnce. now rewrite invoke_closed, H. Qed.

Lemma built_invoke (w : World) (task : SchTask) (taskcreate : TaskCreate)
      (command : string) (own : bool) :
  Debug w = false -> resolves w taskcreate ->
  (cmds <- TaskMake w task taskcreate command own ;;
   if Debug w then ret dbgMessage else invoke w (bin task) cmds) =
  invoke w (bin task)
         (layout task taskcreate command own (program w taskcreate)).
Proof.
  intros D H. rewrite (TaskMake_resolved _ _ _ _ _ H), D. cbv zeta.
  cbn [bind app]. now destruct (invoke w (bin task) _).
Qed.

(** X1.  Outside debug mode, when the binary fails, every operation ends
    the process after that one invocation, and the message is the combined
    output of the binary, not the text of the error. *)
Theorem failure_is_fatal (w : World) (task : SchTask)
        (taskcreate : TaskCreate) (taskname command : string)
        (own force : bool) (out msg : string) :
  Debug w = false -> resolves w taskcreate ->
  (forall b args, CombinedOutput w b args = (out, Some msg)) ->
  failsOnce (Create w task taskcreate) out /\
  failsOnce (Delete w task taskname own force) out /\
  failsOnce (Query w task taskname own) out /\
  failsOnce (Change w task taskcreate own) out /\
  failsOnce (Run w task taskname own) out /\
  failsOnce (End_ w task taskname own) out /\
  failsOnce (ShowSid w task taskname own) out /\
  failsOnce (ShowHelp w task command) out.
Proof.
  intros D H F. repeat match goal with |- _ /\ _ => split end.
  - rewrite Create_closed, built_invoke by assumption.
    eapply invoke_fails, F.
  - rewrite Delete_closed, D. eapply invoke_fails, F.
  - unfold failsOnce. rewrite invocations_Query, Query_closed, F. now split.
  - rewrite Change_closed, built_invoke by assumption.
    eapply invoke_fails, F.
  - rewrite Run_closed, D. eapply invoke_fails, F.
  - rewrite End_closed, D. eapply invoke_fails, F.
  - rewrite ShowSid_closed, D. eapply invoke_fails, F.
  - rewrite ShowHelp_closed. eapply invoke_fails, F.
Qed.

Lemma failure_is_fatal_witness :
  failsOnce (Create (failing "ERROR: Access is denied.") (New false) testTask)
            "ERROR: Access is denied." /\
  failsOnce (Delete (failing "ERROR: Access is denied.") (New false)
                    "Test" true true) "ERROR: Access is denied." /\
  failsOnce (Query (failing "ERROR: Access is denied.") (New false)
                   "Test" true) "ERROR: Access is denied." /\
  failsOnce (Change (failing "ERROR: Access is denied.") (New false)
                    testTask true) "ERROR: Access is denied." /\
  failsOnce (Run (failing "ERROR: Access is denied.") (New false)
                 "Test" true) "ERROR: Access is denied." /\
  failsOnce (End_ (failing "ERROR: Access is denied.") (New false)
                  "Test" true) "ERROR: Access is denied." /\
  failsOnce (ShowSid (failing "ERROR: Access is denied.") (New false)
                     "Test" true) "ERROR: Access is denied." /\
  failsOnce (ShowHelp (failing "ERROR: Access is denied.") (New false)
                      "/CREATE") "ERROR: Access is denied.".
Proof.
  apply (failure_is_fatal (failing "ERROR: Access is denied.") (New false)
           testTask "Test" "/CREATE" true true
           "ERROR: Access is denied." "exit status 1").
  - reflexivity.
  - left. discriminate.
  - reflexivity.
Defined.

(** X2.  Outside debug mode, when the binary succeeds, each of the seven
    operations that return a string returns the combined output of that
    one invocation unchanged. *)
Theorem success_returns_output (w : World) (task : SchTask)
        (taskcreate : TaskCreate) (taskname command : string)
        (own force : bool) (out : string) :
  Debug w = false -> resolves w taskcreate ->
  (forall b args, CombinedOutput w b args = (out, None)) ->
  returnsOnce (Create w task taskcreate) out /\
  returnsOnce (Delete w task taskname own force) out /\
  returnsOnce (Change w task taskcreate own) out /\
  returnsOnce (Run w task taskname own) out /\
  returnsOnce (End_ w task taskname own) out /\
  returnsOnce (ShowSid w task taskname own) out /\
  returnsOnce (ShowHelp w task command) out.
Proof.
  intros D H F. repeat match goal with |- _ /\ _ => split end.
  - rewrite Create_closed, built_invoke by assumption.
    eapply invoke_returns, F.
  - rewrite Delete_closed, D. eapply invoke_returns, F.
  - rewrite Change_closed, built_invoke by assumption.
    eapply invoke_returns, F.
  - rewrite Run_closed, D. eapply invoke_returns, F.
  - rewrite End_closed, D. eapply invoke_returns, F.
  - rewrite ShowSid_closed, D. eapply invoke_returns, F.
  - rewrite ShowHelp_closed. eapply invoke_returns, F.
Qed.

Lemma success_returns_output_witness :
  returnsOnce (Create calmWorld (New false) testTask) "SUCCESS" /\
  returnsOnce (Delete calmWorld (New false) "Test" true false) "SUCCESS" /\
  returnsOnce (Change calmWorld (New false) testTask false) "SUCCESS" /\
  returnsOnce (Run calmWorld (New false) "Test" false) "SUCCESS" /\
  returnsOnce (End_ calmWorld (New false) "Test" false) "SUCCESS" /\
  returnsOnce (ShowSid calmWorld (New false) "Test" false) "SUCCESS" /\
  returnsOnce (ShowHelp calmWorld (New false) "/QUERY") "SUCCESS".
Proof.
  apply (success_returns_output calmWorld (New false) testTask "Test"
           "/QUERY" false false "SUCCESS").
  - reflexivity.
  - left. discriminate.
  - reflexivity.
Defined.

(** ** The vectors handed to the binary *)

Lemma trace_invoke (w : World) (b : string) (args : list string) :
  trace (invoke w b args) = [Exec b args].
Proof. now rewrite invoke_closed. Qed.

(** X3.  Outside debug mode and without own, the caller's name goes to the
    binary as it is: [Delete], [Run], [End] and [Change] put it right after
    /TN, [ShowSid] puts a backslash before it; [Delete] ends the vector with
    /F exactly when force is set, [Run] always ends it with /I, and
    [ShowHelp] hands over the sub-command followed by /?. *)
Theorem plain_names (w : World) (task : SchTask) (taskcreate : TaskCreate)
        (taskname command : string) (force : bool) :
  Debug w = false -> resolves w taskcreate ->
  trace (Delete w task taskname false force) =
    [Exec (bin task)
          ("/DELETE" :: "/TN" :: taskname :: (if force then ["/F"] else []))] /\
  trace (Run w task taskname false) =
    [Exec (bin task) ["/RUN"; "/TN"; taskname; "/I"]] /\
  trace (End_ w task taskname false) =
    [Exec (bin task) ["/END"; "/TN"; taskname]] /\
  trace (ShowSid w task taskname false) =
    [Exec (bin task) ["/SHOWSID"; "/TN"; "\" ++ taskname]] /\
  trace (Change w task taskcreate false) =
    [Exec (bin task)
          (options taskcreate "/CHANGE" ++
           ["/TN"; Taskname taskcreate; "/TR";
            runText (program w taskcreate) (Arguments taskcreate)] ++
           markDeleteFlags taskcreate)%list] /\
  trace (ShowHelp w task command) = [Exec (bin task) [command; "/?"]].
Proof.
  intros D H. repeat match goal with |- _ /\ _ => split end.
  - rewrite Delete_closed, D. apply trace_invoke.
  - rewrite Run_closed, D. apply trace_invoke.
  - rewrite End_closed, D. apply trace_invoke.
  - rewrite ShowSid_closed, D. apply trace_invoke.
  - rewrite Change_closed, built_invoke by assumption. apply trace_invoke.
  - rewrite ShowHelp_closed. apply trace_invoke.
Qed.

Lemma plain_names_witness :
  trace (Delete calmWorld (New false) "Test" false false) =
    [Exec "SCHTASKS" ["/DELETE"; "/TN"; "Test"]] /\
  trace (Run calmWorld (New false) "Test" false) =
    [Exec "SCHTASKS" ["/RUN"; "/TN"; "Test"; "/I"]] /\
  trace (End_ calmWorld (New false) "Test" false) =
    [Exec "SCHTASKS" ["/END"; "/TN"; "Test"]] /\
  trace (ShowSid calmWorld (New false) "Test" false) =
    [Exec "SCHTASKS" ["/SHOWSID"; "/TN"; "\Test"]] /\
  trace (Change calmWorld (New false) testTask false) =
    [Exec "SCHTASKS"
          ["/CHANGE"; "/SC"; "DAILY"; "/ST"; "12:00"; "/RI"; "0"; "/ET";
           "12:01"; "/K"; "/TN"; "Test"; "/TR";
           dquote ++ "notepad.exe" ++ dquote]] /\
  trace (ShowHelp calmWorld (New false) "/CREATE") =
    [Exec "SCHTASKS" ["/CREATE"; "/?"]].
Proof.
  apply (plain_names calmWorld (New false) testTask "Test" "/CREATE" false).
  - reflexivity.
  - left. discriminate.
Defined.

Lemma layout_head (task : SchTask) (taskcreate : TaskCreate)
      (command : string) (own : bool) (p : string) :
  layout task taskcreate command own p =
  command :: tl (layout task taskcreate "" own p).
Proof. reflexivity. Qed.

(** X4.  For the same configuration, [Create] and [Change] with own hand
    the binary the same vector but for its first element, /CREATE or
    /CHANGE. *)
Theorem Create_Change_same_options (w : World) (task : SchTask)
        (taskcreate : TaskCreate) :
  Debug w = false -> resolves w taskcreate ->
  exists rest,
    trace (Create w task taskcreate) = [Exec (bin task) ("/CREATE" :: rest)] /\
    trace (Change w task taskcreate true) =
      [Exec (bin task) ("/CHANGE" :: rest)].
Proof.
  intros D H.
  exists (tl (layout task taskcreate "" true (program w taskcreate))).
  rewrite Create_closed, Change_closed, !built_invoke by assumption.
  rewrite !trace_invoke. split; now rewrite layout_head.
Qed.

Lemma Create_Change_same_options_witness :
  exists rest,
    trace (Create calmWorld (New false) testTask) =
      [Exec "SCHTASKS" ("/CREATE" :: rest)] /\
    trace (Change calmWorld (New false) testTask true) =
      [Exec "SCHTASKS" ("/CHANGE" :: rest)].
Proof.
  apply (Create_Change_same_options calmWorld (New false) testTask).
  - reflexivity.
  - left. discriminate.
Defined.

(** X5.  The own flag of [Change] touches one element of the vector only,
    the one after /TN: with own it is the prefix of the receiver put before
    [Taskname], without own it is [Taskname]; all other elements agree. *)
Theorem Change_own_one_element (w : World) (task : SchTask)
        (taskcreate : TaskCreate) :
  Debug w = false -> resolves w taskcreate ->
  exists before after,
    trace (Change w task taskcreate true) =
      [Exec (bin task)
            (before ++ "/TN" :: (prefix task ++ Taskname taskcreate)%string
                    :: after)%list] /\
    trace (Change w task taskcreate false) =
      [Exec (bin task) (before ++ "/TN" :: Taskname taskcreate :: after)%list].
Proof.
  intros D H.
  exists (options taskcreate "/CHANGE"),
         (["/TR"; runText (program w taskcreate) (Arguments taskcreate)] ++
          markDeleteFlags taskcreate)%list.
  rewrite !Change_closed, !built_invoke by assumption.
  rewrite !trace_invoke. split; reflexivity.
Qed.

Lemma Change_own_one_element_witness :
  exists before after,
    trace (Change calmWorld (New false) testTask true) =
      [Exec "SCHTASKS"
            (before ++ "/TN" :: ("go-wintask-" ++ "Test")%string
                    :: after)%list] /\
    trace (Change calmWorld (New false) testTask false) =
      [Exec "SCHTASKS" (before ++ "/TN" :: "Test" :: after)%list].
Proof.
  apply (Change_own_one_element calmWorld (New false) testTask).
  - reflexivity.
  - left. discriminate.
Defined.

Lemma length_flagValue (flag value : string) :
  List.length (flagValue flag value) <= 2.
Proof. unfold flagValue. destruct (String.eqb value ""); simpl; lia. Qed.

Lemma length_flagList (flag : string) (values : list string) :
  List.length (flagList flag values) <= 2.
Proof. unfold flagList. destruct (emptyJoin values); simpl; lia. Qed.

Lemma length_bareFlag (flag : string) (on : bool) :
  List.length (bareFlag flag on) <= 1.
Proof. destruct on; simpl; lia. Qed.

(** X6.  The vector of [TaskMake] has at least five elements (the
    sub-command, /TN with the name and /TR with the run text) and at most
    forty-two. *)
Theorem TaskMake_length (w : World) (task : SchTask) (taskcreate : TaskCreate)
        (command : string) (own : bool) :
  resolves w taskcreate ->
  exists v,
    outcome (TaskMake w task taskcreate command own) = Returns v /\
    5 <= List.length v <= 42.
Proof.
  intros H. rewrite (TaskMake_resolved _ _ _ _ _ H). cbv zeta.
  eexists. split; [reflexivity|].
  unfold layout, options, beforeDays, afterMonths, markDeleteFlags.
  cbn [List.length]. rewrite !length_app. cbn [List.length].
  rewrite !length_app.
  pose proof (length_flagValue "/RU" (Username taskcreate)).
  pose proof (length_flagValue "/RP" (Password taskcreate)).
  pose proof (length_flagValue "/SC" (Schedule taskcreate)).
  pose proof (length_flagValue "/MO" (Modifier taskcreate)).
  pose proof (length_flagList "/D" (Days taskcreate)).
  pose proof (length_flagList "/M" (Months taskcreate)).
  pose proof (length_flagValue "/I" (Idletime taskcreate)).
  pose proof (length_flagValue "/ST" (Starttime taskcreate)).
  pose proof (length_flagValue "/RI" (Interval taskcreate)).
  pose proof (length_flagValue "/ET" (Endtime taskcreate)).
  pose proof (length_flagValue "/DU" (Duration taskcreate)).
  pose proof (length_bareFlag "/K" (Terminate taskcreate)).
  pose proof (length_flagValue "/SD" (Startdate taskcreate)).
  pose proof (length_flagValue "/ED" (Enddate taskcreate)).
  pose proof (length_flagValue "/EC" (ChannelName taskcreate)).
  pose proof (length_bareFlag "/NP" (NoPassword taskcreate)).
  pose proof (length_bareFlag "/F" (Force taskcreate)).
  pose proof (length_flagValue "/RL" (Level taskcreate)).
  pose proof (length_flagValue "/DELAY" (Delaytime taskcreate)).
  destruct (MarkDelete taskcreate); cbn [List.length]; lia.
Qed.

Lemma TaskMake_length_witness :
  exists v,
    outcome (TaskMake calmWorld (New false) emptyTask "/CREATE" false)
    = Returns v /\
    5 <= List.length v <= 42.
Proof.
  apply (TaskMake_length calmWorld (New false) emptyTask "/CREATE" false).
  right. reflexivity.
Defined.

(** Both bounds are reached. *)
Example TaskMake_length_reached :
  (exists v, outcome (TaskMake calmWorld (New false) emptyTask "/CREATE" false)
             = Returns v /\ List.length v = 5) /\
  (exists v, outcome (TaskMake calmWorld (New false) fullTask "/CREATE" true)
             = Returns v /\ List.length v = 42).
Proof. split; eexists; split; reflexivity. Qed.

(** ** Debug mode as a dry run *)

Lemma resolves_setDebug (w : World) (debug : bool) (taskcreate : TaskCreate) :
  resolves (setDebug w debug) taskcreate <-> resolves w taskcreate.
Proof. reflexivity. Qed.



(** ** The ways in which the functions end *)

Lemma TaskMake_not_panics (w : World) (task : SchTask)
      (taskcreate : TaskCreate) (command : string) (own : bool) :
  outcome (TaskMake w task taskcreate command own) <> Panics.
Proof.
  rewrite TaskMake_closed.
  destruct (nonEmpty (Taskrun taskcreate)); [discriminate|].
  now destruct (filepath_Abs w (filepath_Dir w (os_Args0 w)))
    as [dir [msg|]].
Qed.

(** X8.  [TaskMake] never panics and never runs the binary.  It ends the
    process exactly when [Taskrun] is empty and [filepath.Abs] fails, with
    the text of that error as the message, and returns a vector in every
    other case. *)
Theorem TaskMake_endings (w : World) (task : SchTask)
        (taskcreate : TaskCreate) (command : string) (own : bool) :
  outcome (TaskMake w task taskcreate command own) <> Panics /\
  invocations (TaskMake w task taskcreate command own) = 0 /\
  (forall msg,
     outcome (TaskMake w task taskcreate command own) = Fatal msg <->
     Taskrun taskcreate = "" /\
     snd (filepath_Abs w (filepath_Dir w (os_Args0 w))) = Some msg) /\
  ((exists v, outcome (TaskMake w task taskcreate command own) = Returns v)
   <-> resolves w taskcreate).
Proof.
  split; [|split; [apply invocations_TaskMake|]].
  - apply TaskMake_not_panics.
  - unfold resolves. rewrite TaskMake_closed. unfold nonEmpty.
    destruct (String.eqb_spec (Taskrun taskcreate) "") as [E|NE];
      cbn [negb outcome snd].
    + destruct (filepath_Abs w (filepath_Dir w (os_Args0 w)))
        as [dir [m|]]; cbn [outcome snd]; split.
      * intros msg. split.
        -- intros [= ->]. now split.
        -- intros [_ [= ->]]. reflexivity.
      * split.
        -- intros [v Hv]. discriminate Hv.
        -- intros [Hne|Hn]; [contradiction | discriminate Hn].
      * intros msg. split; [discriminate | intros [_ Hm]; discriminate Hm].
      * split; [now right | intros _; now eexists].
    + split.
      * intros msg. split; [discriminate | intros [Hm _]; contradiction].
      * split; [now left | intros _; now eexists].
Qed.

Lemma not_panics_gated (w : World) (b : string) (args : list string) :
  outcome (if Debug w then ret dbgMessage else invoke w b args) <> Panics.
Proof.
  destruct (Debug w); [discriminate|].
  rewrite invoke_closed. cbn [outcome snd].
  now destruct (CombinedOutput w b args) as [out [e|]].
Qed.

Lemma outcome_bind {A B} (m : M A) (k : A -> M B) :
  outcome (bind m k) =
  match outcome m with
  | Returns a => outcome (k a)
  | Fatal msg => Fatal msg
  | Panics => Panics
  end.
Proof.
  destruct m as [t [a|msg|]]; cbn [bind outcome snd]; [|reflexivity..].
  now destruct (k a).
Qed.

Lemma not_panics_built (w : World) (task : SchTask)
      (taskcreate : TaskCreate) (command : string) (own : bool) :
  outcome (cmds <- TaskMake w task taskcreate command own ;;
           if Debug w then ret dbgMessage else invoke w (bin task) cmds)
  <> Panics.
Proof.
  rewrite outcome_bind.
  destruct (outcome (TaskMake w task taskcreate command own)) eqn:E.
  - apply not_panics_gated.
  - discriminate.
  - now elim (TaskMake_not_panics w task taskcreate command own).
Qed.

(** X9.  Of the public operations only [Query] can panic: the seven others
    end by returning or by [log.Fatal] on every host and input. *)
Theorem only_Query_panics (w : World) (task : SchTask)
        (taskcreate : TaskCreate) (taskname command : string)
        (own force : bool) :
  outcome (Create w task taskcreate) <> Panics /\
  outcome (Delete w task taskname own force) <> Panics /\
  outcome (Change w task taskcreate own) <> Panics /\
  outcome (Run w task taskname own) <> Panics /\
  outcome (End_ w task taskname own) <> Panics /\
  outcome (ShowSid w task taskname own) <> Panics /\
  outcome (ShowHelp w task command) <> Panics.
Proof.
  repeat match goal with |- _ /\ _ => split end.
  - rewrite Create_closed. apply not_panics_built.
  - rewrite Delete_closed. apply not_panics_gated.
  - rewrite Change_closed. apply not_panics_built.
  - rewrite Run_closed. apply not_panics_gated.
  - rewrite End_closed. apply not_panics_gated.
  - rewrite ShowSid_closed. apply not_panics_gated.
  - rewrite ShowHelp_closed, invoke_closed. cbn [outcome snd].
    now destruct (CombinedOutput w (bin task) [command; "/?"])
      as [out [e|]].
Qed.

(** ** The endings of [Query] *)

Lemma forallb_threeFields_false (l : list string) :
  forallb threeFields l = false <->
  exists tx, In tx l /\ List.length (strings.Split tx ",") < 3.
Proof.
  induction l as [|x l IH]; cbn [forallb].
  - split; [discriminate | intros [tx [[] _]]].
  - rewrite andb_false_iff, IH. unfold threeFields at 1.
    rewrite Nat.leb_gt. split.
    + intros [H|[tx [Hin Hlt]]].
      * exists x. split; [now left | exact H].
      * exists tx. split; [now right | exact Hlt].
    + intros [tx [[->|Hin] Hlt]]; [now left|].
      right. now exists tx.
Qed.

(** X10.  [Query] ends in one of three ways, decided by the answer of the
    binary alone: it ends the process when the invocation fails; it panics
    when the invocation succeeds and some line that is not a skipped header
    and passes the name filter has fewer than three comma-separated fields;
    it returns its records in every other case. *)
Theorem Query_endings (w : World) (task : SchTask) (taskname : string)
        (own : bool) :
  let answer := CombinedOutput w (bin task) (queryArgs task) in
  let reached :=
    selected w task (queryName task taskname own) (fst answer) in
  (forall msg, outcome (Query w task taskname own) = Fatal msg <->
               snd answer <> None /\ msg = fst answer) /\
  (outcome (Query w task taskname own) = Panics <->
   snd answer = None /\
   exists tx, In tx reached /\ List.length (strings.Split tx ",") < 3) /\
  ((exists tasks, outcome (Query w task taskname own) = Returns tasks) <->
   snd answer = None /\
   forall tx, In tx reached -> 3 <= List.length (strings.Split tx ",")).
Proof.
  intros answer reached. subst answer reached.
  rewrite Query_closed.
  destruct (CombinedOutput w (bin task) (queryArgs task)) as [output [e|]];
    cbn [outcome fst snd].
  - split; [|split].
    + intros msg. split.
      * intros [= <-]. split; [discriminate | reflexivity].
      * intros [_ ->]. reflexivity.
    + split; [discriminate | intros [H _]; discriminate H].
    + split; [intros [tasks H]; discriminate H | intros [H _]; discriminate H].
  - destruct (forallb threeFields
                (selected w task (queryName task taskname own) output))
      eqn:F.
    + split; [|split].
      * intros msg. split; [discriminate | intros [H _]; now elim H].
      * split; [discriminate|].
        intros [_ Hex]. apply forallb_threeFields_false in Hex.
        rewrite F in Hex. discriminate Hex.
      * split; [|intros _; now eexists].
        intros _. split; [reflexivity|].
        intros tx Hin. rewrite forallb_forall in F.
        specialize (F tx Hin). unfold threeFields in F.
        now apply Nat.leb_le in F.
    + split; [|split].
      * intros msg. split; [discriminate | intros [H _]; now elim H].
      * split; [|reflexivity].
        intros _. split; [reflexivity|].
        now apply forallb_threeFields_false.
      * split; [intros [tasks H]; discriminate H|].
        intros [_ H]. rewrite (forallb_threeFields _ H) in F.
        discriminate F.
Qed.

(** ** The name filter *)

Lemma filter_map_record (w : World) (n : string) (l : list string) :
  map record (filter (passes w n) l) =
  filter (nameMatches w n) (map record l).
Proof.
  induction l as [|tx l IH]; [reflexivity|].
  cbn [filter map].
  change (nameMatches w n (record tx)) with (passes w n tx).
  destruct (passes w n tx); cbn [map]; now rewrite IH.
Qed.

Lemma filter_all {A} (f : A -> bool) (l : list A) :
  (forall x, f x = true) -> filter f l = l.
Proof.
  intros H. induction l as [|x l IH]; [reflexivity|].
  cbn [filter]. now rewrite H, IH.
Qed.

Lemma forallb_filter {A} (f g : A -> bool) (l : list A) :
  forallb f l = true -> forallb f (filter g l) = true.
Proof.
  rewrite !forallb_forall. intros H x Hx.
  apply filter_In in Hx as [Hx _]. now apply H.
Qed.

(** X11.  A query by name is the query for everything, filtered: when
    [Query] called with "*" and without own returns its records, [Query]
    called on the same host with any name and own flag returns those of
    them whose name passes the filter, in the same order. *)
Theorem Query_filters_all (w : World) (task : SchTask) (taskname : string)
        (own : bool) (all : list Task) :
  outcome (Query w task "*" false) = Returns all ->
  outcome (Query w task taskname own) =
  Returns (filter (nameMatches w (queryName task taskname own)) all).
Proof.
  rewrite !Query_closed.
  destruct (CombinedOutput w (bin task) (queryArgs task)) as [output [e|]];
    cbn [outcome snd]; [discriminate|].
  unfold records, selected. cbn [queryName].
  set (lines := filter (fun tx => negb (isHeader task tx))
                       (map unquote (bufio.ScanLines output))).
  rewrite (filter_all (passes w "*") lines) by reflexivity.
  destruct (forallb threeFields lines) eqn:F; [|discriminate].
  intros [= <-].
  rewrite (forallb_filter threeFields _ lines F).
  now rewrite filter_map_record.
Qed.

Lemma Query_filters_all_witness :
  outcome (Query (answering listing) (New false) "backup" false) =
  Returns
    (filter (nameMatches (answering listing)
                         (queryName (New false) "backup" false))
       [ {| name := "TaskName"; datetime := "Next Run Time";
            status := "Status" |};
         {| name := "\go-wintask-Test"; datetime := "N/A";
            status := "Ready" |};
         {| name := "\Backup"; datetime := "N/A"; status := "Disabled" |} ]).
Proof.
  apply (Query_filters_all (answering listing) (New false) "backup" false).
  reflexivity.
Defined.

(** X12.  [Query] called with own on a receiver made by [New] never
    returns everything by default: whatever the name, also "" or "*", every
    task returned has a name that contains, letter case aside, the prefix
    "go-wintask-" followed by the name asked for (by nothing for "*"). *)
Theorem Query_own_contains (w : World) (com : bool) (taskname : string)
        (tasks : list Task) (t : Task) :
  outcome (Query w (New com) taskname true) = Returns tasks ->
  In t tasks ->
  strings.Contains
    (strings_ToLower w (name t))
    (strings_ToLower w
       ("go-wintask-" ++ (if String.eqb taskname "*" then "" else taskname)))
  = true.
Proof.
  rewrite Query_closed.
  destruct (CombinedOutput w (bin (New com)) (queryArgs (New com)))
    as [output [e|]]; cbn [outcome snd]; [discriminate|].
  destruct (forallb threeFields _); [|discriminate].
  intros [= <-] Hin.
  apply In_selected in Hin as [tx [-> Hp]].
  unfold passes, queryName in Hp. cbn [New prefix] in Hp.
  destruct (String.eqb taskname "*"); exact Hp.
Qed.

Lemma Query_own_contains_witness :
  strings.Contains
    (lowerASCII "\go-wintask-Test")
    (lowerASCII ("go-wintask-" ++ (if String.eqb "" "*" then "" else "")))
  = true.
Proof.
  apply (Query_own_contains (answering listing) false ""
           [ {| name := "\go-wintask-Test"; datetime := "N/A";
                status := "Ready" |} ]
           {| name := "\go-wintask-Test"; datetime := "N/A";
              status := "Ready" |}).
  - reflexivity.
  - now left.
Defined.

(** X13.  [Query] makes no record up: it returns at most one record per
    line that the scanner delivers. *)
Theorem Query_at_most_one_per_line (w : World) (task : SchTask)
        (taskname : string) (own : bool) (tasks : list Task) :
  outcome (Query w task taskname own) = Returns tasks ->
  List.length tasks <=
  List.length
    (bufio.ScanLines (fst (CombinedOutput w (bin task) (queryArgs task)))).
Proof.
  rewrite Query_closed.
  destruct (CombinedOutput w (bin task) (queryArgs task)) as [output [e|]];
    cbn [outcome snd fst]; [discriminate|].
  destruct (forallb threeFields _); [|discriminate].
  intros [= <-]. unfold records, selected.
  rewrite length_map.
  etransitivity; [apply filter_length_le|].
  etransitivity; [apply filter_length_le|].
  now rewrite length_map.
Qed.

Lemma Query_at_most_one_per_line_witness :
  List.length
    [ {| name := "\go-wintask-Test"; datetime := "N/A"; status := "Ready" |} ]
  <= List.length
       (bufio.ScanLines
          (fst (CombinedOutput (answering listing) (bin (New true))
                               (queryArgs (New true))))).
Proof.
  apply (Query_at_most_one_per_line (answering listing) (New true) "*" true).
  reflexivity.
Defined.

(** ** The bytes of a text *)

Lemma IndexRune_lower (s : string) (c : ascii) :
  (-1 <= strings.IndexRune s c)%Z.
Proof.
  induction s as [|a s IH]; cbn [strings.IndexRune]; [lia|].
  destruct (Ascii.eqb a c); [lia|].
  destruct (strings.IndexRune s c <? 0)%Z eqn:E; [lia|].
  apply Z.ltb_ge in E. lia.
Qed.

Lemma hasByte_empty (c : ascii) : hasByte "" c = false.
Proof. reflexivity. Qed.

Lemma hasByte_cons (a : ascii) (s : string) (c : ascii) :
  hasByte (String a s) c = Ascii.eqb a c || hasByte s c.
Proof.
  unfold hasByte. cbn [strings.IndexRune].
  destruct (Ascii.eqb a c); [reflexivity|]. cbn [orb].
  pose proof (IndexRune_lower s c).
  destruct (strings.IndexRune s c <? 0)%Z eqn:E.
  - apply Z.ltb_lt in E. symmetry. apply Z.leb_gt. exact E.
  - apply Z.ltb_ge in E.
    transitivity true; [apply Z.leb_le; lia | symmetry; now apply Z.leb_le].
Qed.

Lemma hasByte_append (a b : string) (c : ascii) :
  hasByte (a ++ b) c = hasByte a c || hasByte b c.
Proof.
  induction a as [|x a IH]; [reflexivity|].
  cbn [String.append]. rewrite !hasByte_cons, IH. apply orb_assoc.
Qed.

Lemma hasByte_rev (s : string) (c : ascii) :
  hasByte (strings.rev s) c = hasByte s c.
Proof.
  induction s as [|x s IH]; [reflexivity|].
  cbn [strings.rev]. rewrite hasByte_append, !hasByte_cons, IH, hasByte_empty.
  rewrite orb_false_r. apply orb_comm.
Qed.

(** What trimming leaves is a piece of the text. *)
Lemma trimFront_suffix sp2 sp3 (s : string) :
  exists p, s = p ++ strings.trimFront sp2 sp3 s.
Proof.
  induction s as [s IH] using string_length_ind.
  destruct s as [|b1 [|b2 [|b3 r3]]].
  - now exists "".
  - cbn. destruct (strings.asciiSpace b1); [now exists (String b1 "")|].
    now exists "".
  - cbn [strings.trimFront]. destruct (strings.asciiSpace b1).
    + destruct (IH (String b2 "")) as [p Hp]; [simpl; lia|].
      exists (String b1 p). cbn [String.append]. f_equal. exact Hp.
    + destruct (sp2 b1 b2); [now exists (String b1 (String b2 ""))|].
      now exists "".
  - cbn [strings.trimFront]. destruct (strings.asciiSpace b1).
    + destruct (IH (String b2 (String b3 r3))) as [p Hp]; [simpl; lia|].
      exists (String b1 p). cbn [String.append]. f_equal. exact Hp.
    + destruct (sp2 b1 b2).
      * destruct (IH (String b3 r3)) as [p Hp]; [simpl; lia|].
        exists (String b1 (String b2 p)). cbn [String.append].
        do 2 f_equal. exact Hp.
      * destruct (sp3 b1 b2 b3); [|now exists ""].
        destruct (IH r3) as [p Hp]; [simpl; lia|].
        exists (String b1 (String b2 (String b3 p))). cbn [String.append].
        do 3 f_equal. exact Hp.
Qed.

Lemma trimFront_length sp2 sp3 (s : string) :
  String.length (strings.trimFront sp2 sp3 s) <= String.length s.
Proof.
  destruct (trimFront_suffix sp2 sp3 s) as [p Hp].
  rewrite Hp at 2. rewrite length_append. lia.
Qed.

Lemma TrimRight_prefix (s : string) :
  exists q, s = strings.TrimRight s ++ q.
Proof.
  destruct (trimFront_suffix (fun b2 b1 => strings.space2 b1 b2)
              (fun b3 b2 b1 => strings.space3 b1 b2 b3) (strings.rev s))
    as [p Hp].
  exists (strings.rev p). rewrite TrimRight_unfold.
  unfold strings.trimBack. rewrite <- rev_append, <- Hp.
  now rewrite rev_involutive.
Qed.

Lemma TrimSpace_infix (s : string) :
  exists p q, s = p ++ strings.TrimSpace s ++ q.
Proof.
  destruct (trimFront_suffix strings.space2 strings.space3 s) as [p Hp].
  destruct (TrimRight_prefix (strings.TrimLeft s)) as [q Hq].
  exists p, q. unfold strings.TrimSpace.
  rewrite <- Hq. exact Hp.
Qed.

Lemma hasByte_TrimSpace (s : string) (c : ascii) :
  hasByte s c = false -> hasByte (strings.TrimSpace s) c = false.
Proof.
  destruct (TrimSpace_infix s) as [p [q E]]. intros H.
  rewrite E, !hasByte_append in H.
  apply orb_false_iff in H as [_ H]. now apply orb_false_iff in H as [H _].
Qed.

(** A text that stays as it is when a tail is added stays as it is. *)
Lemma trimFront_prefix_fixed sp2 sp3 (r q : string) :
  strings.trimFront sp2 sp3 (r ++ q) = r ++ q ->
  strings.trimFront sp2 sp3 r = r.
Proof.
  assert (shorter : forall u v : string,
             String.length u < String.length v ->
             strings.trimFront sp2 sp3 u <> v).
  { intros u v Hl E. pose proof (trimFront_length sp2 sp3 u) as L.
    rewrite E in L. lia. }
  destruct r as [|b1 [|b2 [|b3 r']]]; [reflexivity | | |];
    cbn [String.append strings.trimFront]; intros H.
  - destruct (strings.asciiSpace b1); [|reflexivity].
    elim (shorter q (String b1 q)); [simpl; lia | exact H].
  - destruct (strings.asciiSpace b1).
    { elim (shorter (String b2 q) (String b1 (String b2 q)));
        [simpl; lia | exact H]. }
    destruct (sp2 b1 b2); [|reflexivity].
    elim (shorter q (String b1 (String b2 q))); [simpl; lia | exact H].
  - destruct (strings.asciiSpace b1).
    { elim (shorter (String b2 (String b3 (r' ++ q)))
                    (String b1 (String b2 (String b3 (r' ++ q)))));
        [simpl; lia | exact H]. }
    destruct (sp2 b1 b2).
    { elim (shorter (String b3 (r' ++ q))
                    (String b1 (String b2 (String b3 (r' ++ q)))));
        [simpl; lia | exact H]. }
    destruct (sp3 b1 b2 b3); [|reflexivity].
    elim (shorter (r' ++ q) (String b1 (String b2 (String b3 (r' ++ q)))));
      [simpl; lia | exact H].
Qed.

(** Trimming twice is trimming once. *)
Lemma TrimSpace_idempotent (s : string) :
  strings.TrimSpace (strings.TrimSpace s) = strings.TrimSpace s.
Proof.
  unfold strings.TrimSpace.
  set (l := strings.TrimLeft s).
  assert (Hl : strings.TrimLeft l = l) by apply trimFront_idempotent.
  destruct (TrimRight_prefix l) as [q Hq].
  assert (Hr : strings.TrimLeft (strings.TrimRight l) = strings.TrimRight l).
  { apply (trimFront_prefix_fixed _ _ _ q). rewrite <- Hq. exact Hl. }
  rewrite Hr. rewrite !TrimRight_unfold, rev_involutive.
  f_equal. apply trimFront_idempotent.
Qed.

(** ** The name of the running executable *)

Lemma path_Split_parts (p : string) :
  fst (path.Split p) ++ snd (path.Split p) = p /\
  hasByte (snd (path.Split p)) "/" = false /\
  (fst (path.Split p) = "" \/
   exists d, fst (path.Split p) = d ++ "/").
Proof.
  induction p as [|c p [IH1 [IH2 IH3]]]; [now repeat split; left|].
  cbn [path.Split]. destruct (path.Split p) as [dir file].
  cbn [fst snd] in *.
  destruct (Ascii.eqb_spec c "/") as [->|Hc].
  - cbn [fst snd String.append]. rewrite IH1. split; [reflexivity|].
    split; [exact IH2|].
    right. destruct IH3 as [->|[d ->]]; [now exists ""|].
    now exists (String "/" d).
  - destruct (String.eqb_spec dir "") as [->|Hd]; cbn [fst snd String.append].
    + cbn [String.append] in IH1. subst p. split; [reflexivity|].
      split; [|now left].
      rewrite hasByte_cons, IH2.
      now destruct (Ascii.eqb_spec c "/").
    + rewrite IH1. split; [reflexivity|]. split; [exact IH2|].
      right. destruct IH3 as [->|[d ->]]; [now elim Hd|].
      now exists (String c d).
Qed.

(** X14.  [getCurrExe] gives the part of [os.Args[0]] behind its last
    forward slash: it holds no forward slash, and what stands before it in
    [os.Args[0]] is empty or ends with a forward slash.  Backslashes are not
    separators for it. *)
Theorem getCurrExe_file_part (w : World) :
  hasByte (getCurrExe w) "/" = false /\
  exists dir,
    os_Args0 w = dir ++ getCurrExe w /\
    (dir = "" \/ exists d, dir = d ++ "/").
Proof.
  unfold getCurrExe.
  destruct (path_Split_parts (os_Args0 w)) as [H1 [H2 H3]].
  destruct (path.Split (os_Args0 w)) as [dir file]. cbn [fst snd] in *.
  split; [exact H2|]. exists dir. now split.
Qed.

(** With backslashes only, the whole of [os.Args[0]] is the file part. *)
Lemma getCurrExe_no_slash (w : World) :
  hasByte (os_Args0 w) "/" = false -> getCurrExe w = os_Args0 w.
Proof.
  intros H. unfold getCurrExe.
  destruct (path_Split_parts (os_Args0 w)) as [E [_ D]].
  destruct (path.Split (os_Args0 w)) as [dir file]. cbn [fst snd] in *.
  destruct D as [->|[d ->]]; [exact E|].
  rewrite <- E, !hasByte_append, hasByte_cons in H. cbn in H.
  now rewrite orb_true_r in H.
Qed.

(** ** The run text *)

Lemma runText_trimmed (p : string) (arguments : list string) :
  strings.TrimSpace (runText p arguments) = runText p arguments.
Proof.
  unfold runText. cbv zeta.
  destruct (String.eqb_spec (strings.TrimSpace (joinedArgs arguments)) "")
    as [E|NE].
  - replace (dquote ++ p ++ dquote ++ "")
      with (dquote ++ p ++ dquote) by now rewrite append_nil_r.
    apply TrimSpace_quoted.
  - now apply TrimSpace_quoted_rest.
Qed.

Lemma runText_prefix (p : string) (arguments : list string) :
  strings.HasPrefix (runText p arguments) (dquote ++ p ++ dquote) = true.
Proof.
  unfold runText, strings.HasPrefix. cbv zeta.
  rewrite <- !append_assoc. apply prefix_append.
Qed.

(** X15.  The value that [TaskMake] puts after /TR starts with the program
    between two double quotes, whatever the program and the arguments hold,
    and has no white space at either end. *)
Theorem TaskMake_run_quoted (w : World) (task : SchTask)
        (taskcreate : TaskCreate) (command : string) (own : bool) :
  resolves w taskcreate ->
  exists before value after,
    outcome (TaskMake w task taskcreate command own) =
      Returns (before ++ "/TR" :: value :: after)%list /\
    strings.HasPrefix value (dquote ++ program w taskcreate ++ dquote)
      = true /\
    strings.TrimSpace value = value.
Proof.
  intros H.
  exists (options taskcreate command ++
          ["/TN"; ownName task (Taskname taskcreate) own])%list,
         (runText (program w taskcreate) (Arguments taskcreate)),
         (markDeleteFlags taskcreate).
  rewrite (TaskMake_resolved _ _ _ _ _ H). cbv zeta. cbn [outcome snd].
  split; [|split].
  - unfold layout. now rewrite <- app_assoc.
  - apply runText_prefix.
  - apply runText_trimmed.
Qed.

Lemma TaskMake_run_quoted_witness :
  exists before value after,
    outcome (TaskMake calmWorld (New false)
               (listTask [] [] ["  "; "a b"; tab]) "/CREATE" true) =
      Returns (before ++ "/TR" :: value :: after)%list /\
    strings.HasPrefix value
      (dquote ++ program calmWorld (listTask [] [] ["  "; "a b"; tab])
              ++ dquote) = true /\
    strings.TrimSpace value = value.
Proof.
  apply (TaskMake_run_quoted calmWorld (New false)
           (listTask [] [] ["  "; "a b"; tab]) "/CREATE" true).
  left. discriminate.
Defined.

(** ** The fields of the records *)

Lemma RemoveAll_gone (s : string) (c : ascii) :
  hasByte (strings.RemoveAll s c) c = false.
Proof.
  induction s as [|a s IH]; [reflexivity|].
  cbn [strings.RemoveAll]. destruct (Ascii.eqb a c) eqn:E; [exact IH|].
  now rewrite hasByte_cons, E, IH.
Qed.

Lemma RemoveAll_keeps_absent (s : string) (c d : ascii) :
  hasByte s d = false -> hasByte (strings.RemoveAll s c) d = false.
Proof.
  induction s as [|a s IH]; [reflexivity|].
  rewrite hasByte_cons. intros H. apply orb_false_iff in H as [Ha Hs].
  cbn [strings.RemoveAll]. destruct (Ascii.eqb a c); [now apply IH|].
  rewrite hasByte_cons, Ha. now apply IH.
Qed.

Lemma Split_pieces (s : string) (sep : ascii) (piece : string) :
  In piece (strings.Split s sep) ->
  hasByte piece sep = false /\
  forall d, hasByte s d = false -> hasByte piece d = false.
Proof.
  revert piece. induction s as [|a s IH]; intros piece.
  - cbn. intros [<-|[]]. now split.
  - cbn [strings.Split]. destruct (Ascii.eqb a sep) eqn:E.
    + intros [<-|Hin]; [now split|].
      destruct (IH piece Hin) as [H1 H2]. split; [exact H1|].
      intros d Hd. rewrite hasByte_cons in Hd.
      apply orb_false_iff in Hd as [_ Hd]. now apply H2.
    + destruct (strings.Split s sep) as [|first rest].
      * intros [<-|[]]. rewrite hasByte_cons, E. split; [reflexivity|].
        intros d Hd. rewrite hasByte_cons in Hd |- *.
        apply orb_false_iff in Hd as [Hd _]. now rewrite Hd.
      * intros [<-|Hin].
        -- destruct (IH first (or_introl eq_refl)) as [H1 H2].
           rewrite hasByte_cons, E, H1. split; [reflexivity|].
           intros d Hd. rewrite hasByte_cons in Hd |- *.
           apply orb_false_iff in Hd as [Ha Hd]. rewrite Ha. now apply H2.
        -- destruct (IH piece (or_intror Hin)) as [H1 H2]. split; [exact H1|].
           intros d Hd. rewrite hasByte_cons in Hd.
           apply orb_false_iff in Hd as [_ Hd]. now apply H2.
Qed.

Lemma substring_prefix (n : nat) (s : string) :
  exists q, s = String.substring 0 n s ++ q.
Proof.
  revert n. induction s as [|a s IH]; intros n.
  - exists "". now destruct n.
  - destruct n as [|n]; [now exists (String a s)|].
    destruct (IH n) as [q Hq]. exists q. cbn. now rewrite <- Hq.
Qed.

Lemma TrimSuffix_prefix (s suffix : string) :
  exists q, s = strings.TrimSuffix s suffix ++ q.
Proof.
  unfold strings.TrimSuffix. destruct (strings.HasSuffix s suffix).
  - apply substring_prefix.
  - exists "". now rewrite append_nil_r.
Qed.

Lemma dropCR_keeps_absent (line : string) (d : ascii) :
  hasByte line d = false -> hasByte (bufio.dropCR line) d = false.
Proof.
  unfold bufio.dropCR.
  destruct (TrimSuffix_prefix line (String "013" "")) as [q Hq].
  intros H. rewrite Hq, hasByte_append in H.
  now apply orb_false_iff in H as [H _].
Qed.

Lemma tokens_pieces (pieces : list string) (t : string) :
  In t (bufio.tokens pieces) ->
  exists piece, In piece pieces /\ t = bufio.dropCR piece.
Proof.
  induction pieces as [|p [|p' more] IH].
  - intros [].
  - cbn. destruct (String.eqb p ""); [intros []|].
    destruct (bufio.tooLong p); [intros []|].
    intros [<-|[]]. exists p. split; [now left | reflexivity].
  - change (bufio.tokens (p :: p' :: more))
      with (if bufio.tooLong p then []
            else bufio.dropCR p :: bufio.tokens (p' :: more)).
    destruct (bufio.tooLong p); [intros []|].
    intros [<-|Hin].
    + exists p. split; [now left | reflexivity].
    + destruct (IH Hin) as [piece [Hp ->]].
      exists piece. split; [now right | reflexivity].
Qed.

Lemma ScanLines_no_lf (output t : string) :
  In t (bufio.ScanLines output) -> hasByte t "010" = false.
Proof.
  intros H. apply tokens_pieces in H as [piece [Hp ->]].
  apply dropCR_keeps_absent. now apply Split_pieces in Hp as [Hp _].
Qed.

Lemma nth_Split_absent (tx : string) (i : nat) (d : ascii) :
  hasByte tx d = false -> hasByte (nth i (strings.Split tx ",") "") d = false.
Proof.
  intros H. destruct (nth_in_or_default i (strings.Split tx ",") "")
    as [Hin| ->]; [|reflexivity].
  apply Split_pieces in Hin as [_ Hin]. now apply Hin.
Qed.

Lemma nth_Split_no_comma (tx : string) (i : nat) :
  hasByte (nth i (strings.Split tx ",") "") "," = false.
Proof.
  destruct (nth_in_or_default i (strings.Split tx ",") "")
    as [Hin| ->]; [|reflexivity].
  now apply Split_pieces in Hin as [Hin _].
Qed.

Lemma field_clean (text : string) (i : nat) :
  hasByte text "010" = false -> cleanField (field (unquote text) i).
Proof.
  intros H. unfold cleanField, field, unquote.
  repeat match goal with |- _ /\ _ => split end.
  - apply hasByte_TrimSpace, nth_Split_absent, RemoveAll_gone.
  - apply hasByte_TrimSpace, nth_Split_no_comma.
  - now apply hasByte_TrimSpace, nth_Split_absent, RemoveAll_keeps_absent.
  - apply TrimSpace_idempotent.
Qed.

(** X16.  Every field of every record that [Query] returns is clean: it
    holds no double quote, no comma and no line feed, and it has no white
    space at either end (it may be empty). *)
Theorem Query_fields_clean (w : World) (task : SchTask) (taskname : string)
        (own : bool) (tasks : list Task) (t : Task) :
  outcome (Query w task taskname own) = Returns tasks ->
  In t tasks ->
  cleanField (name t) /\ cleanField (datetime t) /\ cleanField (status t).
Proof.
  rewrite Query_closed.
  destruct (CombinedOutput w (bin task) (queryArgs task)) as [output [e|]];
    cbn [outcome snd]; [discriminate|].
  destruct (forallb threeFields _); [|discriminate].
  intros [= <-] Hin. unfold records, selected in Hin.
  apply in_map_iff in Hin as [tx [<- Hin]].
  apply filter_In in Hin as [Hin _]. apply filter_In in Hin as [Hin _].
  apply in_map_iff in Hin as [text [<- Hin]].
  apply ScanLines_no_lf in Hin.
  cbn [record name datetime status].
  repeat split; now apply field_clean.
Qed.

Lemma Query_fields_clean_witness :
  cleanField (name {| name := "\Backup"; datetime := "N/A";
                      status := "Disabled" |}) /\
  cleanField (datetime {| name := "\Backup"; datetime := "N/A";
                          status := "Disabled" |}) /\
  cleanField (status {| name := "\Backup"; datetime := "N/A";
                        status := "Disabled" |}).
Proof.
  apply (Query_fields_clean (answering listing) (New true) "*" false
           [ {| name := "\go-wintask-Test"; datetime := "N/A";
                status := "Ready" |};
             {| name := "\Backup"; datetime := "N/A";
                status := "Disabled" |} ]).
  - reflexivity.
  - right. now left.
Defined.

(** ** The lines of an output *)

Lemma Split_append_sep (a b : string) (sep : ascii) :
  strings.Split (a ++ String sep b) sep =
  (strings.Split a sep ++ strings.Split b sep)%list.
Proof.
  induction a as [|c a IH]; cbn [String.append strings.Split].
  - now rewrite Ascii.eqb_refl.
  - destruct (Ascii.eqb c sep); [now rewrite IH|].
    rewrite IH. now destruct (Split_cons a sep) as [piece [pieces ->]].
Qed.

Lemma Split_whole (s : string) (sep : ascii) :
  hasByte s sep = false -> strings.Split s sep = [s].
Proof.
  induction s as [|c s IH]; [reflexivity|].
  rewrite hasByte_cons. intros H. apply orb_false_iff in H as [Hc Hs].
  cbn [strings.Split]. now rewrite Hc, (IH Hs).
Qed.

Lemma tokens_cons (line next : string) (more : list string) :
  bufio.tokens (line :: next :: more) =
  if bufio.tooLong line then []
  else bufio.dropCR line :: bufio.tokens (next :: more).
Proof. reflexivity. Qed.

(** Nothing is delivered from an over-long line on. *)
Lemma tokens_cut (before : list string) (long : string)
      (after : list string) :
  bufio.tooLong long = true ->
  bufio.tokens (before ++ long :: after) = bufio.tokens (before ++ [""]).
Proof.
  intros L. induction before as [|a before IH].
  - cbn [app]. destruct after as [|b after].
    + cbn. rewrite L. now destruct (String.eqb long "").
    + now rewrite tokens_cons, L.
  - cbn [app].
    destruct before as [|a' before]; cbn [app] in *.
    + rewrite !tokens_cons, IH. reflexivity.
    + rewrite !tokens_cons, IH. reflexivity.
Qed.

Lemma ScanLines_cut (kept long rest : string) :
  kept = "" \/ (exists k, kept = k ++ lf) ->
  hasByte long "010" = false -> bufio.tooLong long = true ->
  rest = "" \/ (exists r, rest = lf ++ r) ->
  bufio.ScanLines (kept ++ long ++ rest) = bufio.ScanLines kept.
Proof.
  intros Hk Hl L Hr. unfold bufio.ScanLines.
  assert (E : exists after,
             strings.Split (long ++ rest) "010" = long :: after).
  { destruct Hr as [->|[r ->]].
    - rewrite append_nil_r, (Split_whole _ _ Hl). now exists [].
    - unfold lf. cbn [String.append]. rewrite Split_append_sep.
      rewrite (Split_whole _ _ Hl). now eexists. }
  destruct E as [after E].
  destruct Hk as [->|[k ->]].
  - cbn [String.append]. rewrite E.
    apply (tokens_cut [] long after L).
  - unfold lf. rewrite !append_assoc. cbn [String.append].
    rewrite !Split_append_sep, E. cbn [strings.Split].
    now apply tokens_cut.
Qed.

Lemma Query_same_lines (w : World) (task : SchTask) (taskname : string)
      (own : bool) (output kept : string) :
  CombinedOutput w (bin task) (queryArgs task) = (output, None) ->
  bufio.ScanLines output = bufio.ScanLines kept ->
  Query w task taskname own =
  Query (setOutput w (kept, None)) task taskname own.
Proof.
  intros E S. rewrite !Query_closed, E. cbn [setOutput CombinedOutput].
  unfold records, selected. now rewrite S.
Qed.

(** X17.  A line of 65536 bytes or more stops the reading of the output
    without any sign: [Query] returns (or panics) as if the output had ended
    just before that line, and the lines behind it are never looked at. *)
Theorem Query_stops_at_long_line (w : World) (task : SchTask)
        (taskname : string) (own : bool) (kept long rest : string) :
  kept = "" \/ (exists k, kept = k ++ lf) ->
  hasByte long "010" = false -> bufio.tooLong long = true ->
  rest = "" \/ (exists r, rest = lf ++ r) ->
  CombinedOutput w (bin task) (queryArgs task)
  = (kept ++ long ++ rest, None) ->
  Query w task taskname own =
  Query (setOutput w (kept, None)) task taskname own.
Proof.
  intros Hk Hl L Hr E. apply (Query_same_lines _ _ _ _ _ _ E).
  now apply ScanLines_cut.
Qed.

Lemma Query_stops_at_long_line_witness :
  Query (answering (listing ++ repeatByte "x" (N.to_nat 65536) ++
                    lf ++ "\Late,N/A,Ready" ++ lf))
        (New true) "*" false =
  Query (setOutput
           (answering (listing ++ repeatByte "x" (N.to_nat 65536) ++
                       lf ++ "\Late,N/A,Ready" ++ lf))
           (listing, None))
        (New true) "*" false.
Proof.
  apply (Query_stops_at_long_line
           (answering (listing ++ repeatByte "x" (N.to_nat 65536) ++
                       lf ++ "\Late,N/A,Ready" ++ lf))
           (New true) "*" false listing
           (repeatByte "x" (N.to_nat 65536))
           (lf ++ "\Late,N/A,Ready" ++ lf)).
  - right. eexists. unfold listing.
    rewrite <- !append_assoc. reflexivity.
  - vm_compute. reflexivity.
  - vm_compute. reflexivity.
  - right. eexists. reflexivity.
  - reflexivity.
Defined.

(** ** Reading a listing back *)

Lemma tooLong_shorter (a b : string) :
  bufio.tooLong (a ++ b) = false -> bufio.tooLong a = false.
Proof.
  unfold bufio.tooLong. rewrite !N.leb_gt, length_append. lia.
Qed.

Lemma dropCR_none (line : string) :
  strings.HasSuffix line cr = false -> bufio.dropCR line = line.
Proof.
  intros H. unfold bufio.dropCR, strings.TrimSuffix.
  change (String "013" "") with cr. now rewrite H.
Qed.

Lemma dropCR_one (line : string) : bufio.dropCR (line ++ cr) = line.
Proof. apply TrimSuffix_append. Qed.

Lemma HasSuffix_quote (x : string) :
  strings.HasSuffix (x ++ dquote) cr = false.
Proof.
  unfold strings.HasSuffix. rewrite rev_append. reflexivity.
Qed.

(** The scanner gives back the lines of a text in which every line is
    followed by a line feed, or by a carriage return and a line feed. *)
Lemma ScanLines_terminated (eol : string) (lines : list string) :
  eol = lf \/ eol = crlf ->
  (forall l, In l lines ->
             hasByte l "010" = false /\
             bufio.tooLong (l ++ cr) = false /\
             strings.HasSuffix l cr = false) ->
  bufio.ScanLines (fold_right (fun l text => l ++ eol ++ text) "" lines)
  = lines.
Proof.
  intros He H. unfold bufio.ScanLines.
  induction lines as [|l lines IH]; [reflexivity|].
  cbn [fold_right].
  destruct (H l (or_introl eq_refl)) as [Hlf [Hlen Hcr]].
  specialize (IH (fun x Hx => H x (or_intror Hx))).
  set (text := fold_right (fun l text => l ++ eol ++ text) "" lines) in *.
  destruct (Split_cons text "010") as [piece [pieces E]].
  destruct He as [->| ->].
  - unfold lf. cbn [String.append].
    rewrite Split_append_sep, (Split_whole _ _ Hlf), E.
    cbn [app]. rewrite tokens_cons, (tooLong_shorter _ _ Hlen).
    rewrite (dropCR_none _ Hcr), <- E, IH. reflexivity.
  - unfold crlf.
    replace (l ++ String "013" (String "010" "") ++ text)
      with ((l ++ cr) ++ String "010" text)
      by (unfold cr; now rewrite append_assoc).
    rewrite Split_append_sep.
    assert (Hlf' : hasByte (l ++ cr) "010" = false)
      by now rewrite hasByte_append, Hlf.
    rewrite (Split_whole _ _ Hlf'), E.
    cbn [app]. rewrite tokens_cons, Hlen, dropCR_one, <- E, IH.
    reflexivity.
Qed.

Lemma RemoveAll_append (a b : string) (c : ascii) :
  strings.RemoveAll (a ++ b) c = strings.RemoveAll a c ++ strings.RemoveAll b c.
Proof.
  induction a as [|x a IH]; [reflexivity|].
  cbn [String.append strings.RemoveAll].
  destruct (Ascii.eqb x c); [exact IH|].
  cbn [String.append]. now rewrite IH.
Qed.

Lemma RemoveAll_absent (s : string) (c : ascii) :
  hasByte s c = false -> strings.RemoveAll s c = s.
Proof.
  induction s as [|x s IH]; [reflexivity|].
  rewrite hasByte_cons. intros H. apply orb_false_iff in H as [Hx Hs].
  cbn [strings.RemoveAll]. now rewrite Hx, (IH Hs).
Qed.

Lemma unquote_csvLine (t : Task) :
  hasByte (name t) "034" = false -> hasByte (datetime t) "034" = false ->
  hasByte (status t) "034" = false ->
  unquote (csvLine t) = name t ++ "," ++ datetime t ++ "," ++ status t.
Proof.
  intros Hn Hd Hs. unfold unquote, csvLine.
  rewrite !RemoveAll_append.
  rewrite (RemoveAll_absent _ _ Hn), (RemoveAll_absent _ _ Hd),
    (RemoveAll_absent _ _ Hs).
  change (strings.RemoveAll dquote "034") with "".
  change (strings.RemoveAll "," "034") with ",".
  cbn [String.append]. now rewrite append_nil_r.
Qed.

Lemma Split_three (n d s : string) :
  hasByte n "," = false -> hasByte d "," = false -> hasByte s "," = false ->
  strings.Split (n ++ "," ++ d ++ "," ++ s) "," = [n; d; s].
Proof.
  intros Hn Hd Hs. cbn [String.append].
  rewrite !Split_append_sep.
  now rewrite (Split_whole _ _ Hn), (Split_whole _ _ Hd), (Split_whole _ _ Hs).
Qed.

Lemma csvLine_read (t : Task) :
  cleanTask t ->
  record (unquote (csvLine t)) = t /\
  threeFields (unquote (csvLine t)) = true /\
  hasByte (csvLine t) "010" = false /\
  strings.HasSuffix (csvLine t) cr = false.
Proof.
  intros [[Nq [Nc [Nl Nt]]] [[Dq [Dc [Dl Dt]]] [[Sq [Sc [Sl St]]] _]]].
  rewrite (unquote_csvLine t Nq Dq Sq).
  unfold record, field, threeFields.
  rewrite (Split_three _ _ _ Nc Dc Sc). cbn [nth List.length].
  rewrite Nt, Dt, St.
  repeat match goal with |- _ /\ _ => split end.
  - now destruct t.
  - reflexivity.
  - unfold csvLine. rewrite !hasByte_append, Nl, Dl, Sl. reflexivity.
  - unfold csvLine. rewrite <- !append_assoc. apply HasSuffix_quote.
Qed.

Lemma map_csvListing (eol : string) (tasks : list Task) :
  csvListing eol tasks =
  fold_right (fun l text => l ++ eol ++ text) "" (map csvLine tasks).
Proof.
  induction tasks as [|t tasks IH]; [reflexivity|].
  cbn [csvListing fold_right map]. f_equal. f_equal. exact IH.
Qed.

(** X18.  [Query] reads a listing back: when the binary, outside
    compatibility mode, prints each task as three fields in double quotes
    separated by commas, each line ended by a line feed or by a carriage
    return and a line feed, and the fields are clean (no double quote,
    comma or line feed, no white space at the ends) and each line stays
    below the limit of the scanner, then [Query] for "*" returns exactly
    those tasks, in their order. *)
Theorem Query_reads_listing (w : World) (task : SchTask) (eol : string)
        (tasks : list Task) :
  compatibility task = false ->
  eol = lf \/ eol = crlf ->
  Forall cleanTask tasks ->
  CombinedOutput w (bin task) (queryArgs task)
  = (csvListing eol tasks, None) ->
  outcome (Query w task "*" false) = Returns tasks.
Proof.
  intros C He Hc E. rewrite Forall_forall in Hc.
  rewrite Query_closed, E. cbn [outcome snd queryName].
  unfold records, selected.
  rewrite map_csvListing, ScanLines_terminated; [|exact He|].
  2:{ intros l Hl. apply in_map_iff in Hl as [t [<- Ht]].
      specialize (Hc t Ht).
      destruct (csvLine_read t Hc) as [_ [_ [Hlf Hcr]]].
      repeat split; [exact Hlf | | exact Hcr].
      now destruct Hc as [_ [_ [_ Hlen]]]. }
  rewrite map_map.
  rewrite (filter_all (fun tx => negb (isHeader task tx)))
    by (intros tx; unfold isHeader; now rewrite C).
  rewrite (filter_all (passes w "*")) by reflexivity.
  assert (R : map record (map (fun t => unquote (csvLine t)) tasks) = tasks).
  { rewrite map_map. rewrite <- (map_id tasks) at 2.
    apply map_ext_in. intros t Ht. now apply csvLine_read, Hc. }
  assert (F : forallb threeFields
                (map (fun t => unquote (csvLine t)) tasks) = true).
  { apply forallb_forall. intros tx Htx.
    apply in_map_iff in Htx as [t [<- Ht]]. now apply csvLine_read, Hc. }
  now rewrite F, R.
Qed.

Lemma Query_reads_listing_witness :
  outcome
    (Query (answering
              (csvListing crlf
                 [ {| name := "\go-wintask-Test"; datetime := "N/A";
                      status := "Ready" |};
                   {| name := "\Backup"; datetime := "31/10/2026 06:00:00";
                      status := "Running" |} ]))
           (New false) "*" false) =
  Returns [ {| name := "\go-wintask-Test"; datetime := "N/A";
               status := "Ready" |};
            {| name := "\Backup"; datetime := "31/10/2026 06:00:00";
               status := "Running" |} ].
Proof.
  apply (Query_reads_listing _ (New false) crlf).
  - reflexivity.
  - now right.
  - repeat constructor.
  - reflexivity.
Defined.

(** ** The program named when [Taskrun] is empty *)

(** X19.  With an empty [Taskrun], when [os.Args[0]] holds no forward
    slash (a path written with backslashes, or a bare file name), the
    program that [TaskMake] names after /TR is [path.Join] of the absolute
    directory and the whole of [os.Args[0]], not of its last component
    only. *)
Theorem TaskMake_program_without_slash (w : World) (task : SchTask)
        (taskcreate : TaskCreate) (command : string) (own : bool)
        (dir : string) :
  Taskrun taskcreate = "" ->
  hasByte (os_Args0 w) "/" = false ->
  filepath_Abs w (filepath_Dir w (os_Args0 w)) = (dir, None) ->
  outcome (TaskMake w task taskcreate command own) =
  Returns (options taskcreate command ++
           ["/TN"; ownName task (Taskname taskcreate) own; "/TR";
            runText (path_Join w dir (os_Args0 w)) (Arguments taskcreate)] ++
           markDeleteFlags taskcreate)%list.
Proof.
  intros E H A.
  rewrite TaskMake_resolved by (right; now rewrite A).
  cbv zeta. cbn [outcome snd]. unfold program.
  now rewrite E, A, (getCurrExe_no_slash w H).
Qed.

Lemma TaskMake_program_without_slash_witness :
  outcome (TaskMake backslashWorld (New false) emptyTask "/CREATE" false) =
  Returns ["/CREATE"; "/TN"; ""; "/TR";
           dquote ++ "C:\tools/C:\tools\app.exe" ++ dquote].
Proof.
  apply (TaskMake_program_without_slash backslashWorld (New false) emptyTask
           "/CREATE" false "C:\tools").
  - reflexivity.
  - reflexivity.
  - reflexivity.
Defined.

(** ** Arguments that pass unchanged *)

Lemma TrimSpace_fixed_firm (s : string) :
  s <> "" -> strings.TrimSpace s = s -> firm s.
Proof.
  intros Hne H. unfold strings.TrimSpace in H.
  destruct (trimFront_suffix strings.space2 strings.space3 s) as [p Hp].
  fold (strings.TrimLeft s) in Hp.
  destruct (TrimRight_prefix (strings.TrimLeft s)) as [q Hq].
  assert (Hlen : String.length p = 0 /\ String.length q = 0).
  { assert (L1 : String.length s
                 = String.length p + String.length (strings.TrimLeft s))
      by (rewrite Hp at 1; apply length_append).
    assert (L2 : String.length (strings.TrimLeft s)
                 = String.length (strings.TrimRight (strings.TrimLeft s))
                   + String.length q)
      by (rewrite Hq at 1; apply length_append).
    rewrite H in L2. lia. }
  destruct Hlen as [Lp Lq].
  destruct p; [|discriminate Lp]. destruct q; [|discriminate Lq].
  cbn [String.append] in Hp. rewrite append_nil_r in Hq.
  assert (HL : strings.TrimLeft s = s) by now symmetry.
  split; [exact Hne|]. split; [exact HL|].
  rewrite HL in H. rewrite TrimRight_unfold in H.
  apply (f_equal strings.rev) in H. now rewrite rev_involutive in H.
Qed.

Lemma firm_quoted (a : string) : firm (dquote ++ a ++ dquote).
Proof.
  split; [discriminate|]. split.
  - apply TrimLeft_quote.
  - rewrite rev_append. cbn [strings.rev dquote String.append].
    rewrite rev_append. cbn [strings.rev String.append].
    apply trimBack_quote.
Qed.

Lemma firm_join (q : string) (qs : list string) :
  firm q -> Forall firm qs -> firm (String.concat " " (q :: qs)).
Proof.
  revert q. induction qs as [|q' qs IH]; intros q Hq Hqs; [exact Hq|].
  inversion Hqs as [|? ? Hq' Hqs']; subst.
  specialize (IH q' Hq' Hqs').
  change (String.concat " " (q :: q' :: qs))
    with (q ++ String " " (String.concat " " (q' :: qs))).
  set (r := String.concat " " (q' :: qs)) in *.
  destruct Hq as [Hne [HL HR]]. destruct IH as [Rne [RL RR]].
  split; [now destruct q|]. split.
  - rewrite TrimLeft_before_space, HL.
    destruct (String.eqb_spec q "") as [E|_]; [contradiction | reflexivity].
  - rewrite rev_append. cbn [strings.rev]. rewrite append_assoc.
    cbn [String.append]. rewrite trimBack_before_space, RR.
    destruct (String.eqb_spec (strings.rev r) "") as [E|_]; [|reflexivity].
    elim Rne. now apply rev_empty.
Qed.

Lemma firm_TrimSpace (s : string) : firm s -> strings.TrimSpace s = s.
Proof.
  intros [_ [HL HR]]. unfold strings.TrimSpace. rewrite HL.
  now apply TrimRight_fixed.
Qed.

(** X20.  Arguments pass to the run text one by one when none of them is
    empty and every one without a space has no white space at its ends:
    the value after /TR is then the quoted program followed by one space
    and the arguments separated by single spaces, each argument that holds
    a space between double quotes and every other argument as it is. *)
Theorem TaskMake_plain_arguments (w : World) (task : SchTask)
        (taskcreate : TaskCreate) (command : string) (own : bool) :
  resolves w taskcreate ->
  Arguments taskcreate <> [] ->
  (forall a, In a (Arguments taskcreate) ->
     a <> "" /\ (hasByte a " " = true \/ strings.TrimSpace a = a)) ->
  outcome (TaskMake w task taskcreate command own) =
  Returns
    (options taskcreate command ++
     ["/TN"; ownName task (Taskname taskcreate) own; "/TR";
      (dquote ++ program w taskcreate ++ dquote ++ " " ++
       String.concat " "
         (map (fun a => if hasByte a " " then dquote ++ a ++ dquote else a)
              (Arguments taskcreate)))%string] ++
     markDeleteFlags taskcreate)%list.
Proof.
  intros H Hne Hargs.
  rewrite TaskMake_resolved by exact H. cbv zeta. cbn [outcome snd].
  unfold layout. do 3 f_equal.
  change (map (fun a => if hasByte a " " then dquote ++ a ++ dquote else a)
              (Arguments taskcreate))
    with (map quoteArg (Arguments taskcreate)).
  fold (joinedArgs (Arguments taskcreate)).
  assert (F : firm (joinedArgs (Arguments taskcreate))).
  { unfold joinedArgs.
    assert (Fs : Forall firm (map quoteArg (Arguments taskcreate))).
    { apply Forall_forall. intros q Hq.
      apply in_map_iff in Hq as [a [<- Ha]].
      destruct (Hargs a Ha) as [Hn Hc]. unfold quoteArg.
      fold (hasByte a " ").
      destruct (hasByte a " ") eqn:S; [apply firm_quoted|].
      destruct Hc as [Hc|Hc]; [discriminate Hc|].
      now apply TrimSpace_fixed_firm. }
    destruct (Arguments taskcreate) as [|a l]; [now elim Hne|].
    cbn [map] in *. inversion Fs; subst. now apply firm_join. }
  unfold runText. cbv zeta. rewrite (firm_TrimSpace _ F).
  destruct F as [Fne _].
  now destruct (String.eqb_spec (joinedArgs (Arguments taskcreate)) "").
Qed.

Lemma TaskMake_plain_arguments_witness :
  outcome (TaskMake calmWorld (New false) fullTask "/CREATE" true) =
  Returns
    (options fullTask "/CREATE" ++
     ["/TN"; ownName (New false) (Taskname fullTask) true; "/TR";
      (dquote ++ program calmWorld fullTask ++ dquote ++ " " ++
       String.concat " "
         (map (fun a => if hasByte a " " then dquote ++ a ++ dquote else a)
              (Arguments fullTask)))%string] ++
     markDeleteFlags fullTask)%list.
Proof.
  apply (TaskMake_plain_arguments calmWorld (New false) fullTask
           "/CREATE" true).
  - left. discriminate.
  - discriminate.
  - intros a [<-|[<-|[]]].
    + split; [discriminate | now right].
    + split; [discriminate | now left].
Defined.

(** ** The lists, read back *)

Lemma Split_join (l : list string) :
  l <> [] -> (forall x, In x l -> hasByte x "," = false) ->
  strings.Split (String.concat "," l) "," = l.
Proof.
  induction l as [|x [|y l] IH]; intros Hne H.
  - now elim Hne.
  - cbn [String.concat]. apply Split_whole, H. now left.
  - change (String.concat "," (x :: y :: l))
      with (x ++ String "," (String.concat "," (y :: l))).
    rewrite Split_append_sep, (Split_whole x) by (apply H; now left).
    rewrite IH; [reflexivity | discriminate |].
    intros z Hz. apply H. now right.
Qed.

Lemma flagList_present (flag : string) (values : list string) :
  emptyJoin values = false ->
  flagList flag values = [flag; String.concat "," values].
Proof. intros H. unfold flagList. now rewrite H. Qed.

(** X21.  The value that [TaskMake] puts after /D splits at its commas
    back into the [Days] list, and the value after /M into the [Months]
    list, whenever the list is not empty, is not the single empty string,
    and none of its elements holds a comma. *)
Theorem TaskMake_lists_read_back (w : World) (task : SchTask)
        (taskcreate : TaskCreate) (command : string) (own : bool) :
  resolves w taskcreate ->
  (emptyJoin (Days taskcreate) = false ->
   (forall d, In d (Days taskcreate) -> hasByte d "," = false) ->
   exists before value after,
     outcome (TaskMake w task taskcreate command own) =
       Returns (before ++ "/D" :: value :: after)%list /\
     strings.Split value "," = Days taskcreate) /\
  (emptyJoin (Months taskcreate) = false ->
   (forall m, In m (Months taskcreate) -> hasByte m "," = false) ->
   exists before value after,
     outcome (TaskMake w task taskcreate command own) =
       Returns (before ++ "/M" :: value :: after)%list /\
     strings.Split value "," = Months taskcreate).
Proof.
  intros H. rewrite TaskMake_resolved by exact H. cbv zeta.
  cbn [outcome snd]. unfold layout, options. split; intros E Hc.
  - exists (beforeDays taskcreate command),
           (String.concat "," (Days taskcreate)),
           (flagList "/M" (Months taskcreate) ++ afterMonths taskcreate ++
            ["/TN"; ownName task (Taskname taskcreate) own; "/TR";
             runText (program w taskcreate) (Arguments taskcreate)] ++
            markDeleteFlags taskcreate)%list.
    split.
    + rewrite (flagList_present _ _ E).
      repeat rewrite <- app_assoc. reflexivity.
    + apply Split_join; [|exact Hc].
      intros N. now rewrite N in E.
  - exists (beforeDays taskcreate command ++
            flagList "/D" (Days taskcreate))%list,
           (String.concat "," (Months taskcreate)),
           (afterMonths taskcreate ++
            ["/TN"; ownName task (Taskname taskcreate) own; "/TR";
             runText (program w taskcreate) (Arguments taskcreate)] ++
            markDeleteFlags taskcreate)%list.
    split.
    + rewrite (flagList_present _ _ E). cbn [app].
      now rewrite <- !app_assoc.
    + apply Split_join; [|exact Hc].
      intros N. now rewrite N in E.
Qed.

Lemma TaskMake_lists_read_back_witness :
  (emptyJoin (Days fullTask) = false ->
   (forall d, In d (Days fullTask) -> hasByte d "," = false) ->
   exists before value after,
     outcome (TaskMake calmWorld (New false) fullTask "/CREATE" true) =
       Returns (before ++ "/D" :: value :: after)%list /\
     strings.Split value "," = Days fullTask) /\
  (emptyJoin (Months fullTask) = false ->
   (forall m, In m (Months fullTask) -> hasByte m "," = false) ->
   exists before value after,
     outcome (TaskMake calmWorld (New false) fullTask "/CREATE" true) =
       Returns (before ++ "/M" :: value :: after)%list /\
     strings.Split value "," = Months fullTask).
Proof.
  apply (TaskMake_lists_read_back calmWorld (New false) fullTask
           "/CREATE" true).
  left. discriminate.
Defined.

(** ** No empty argument *)

Lemma flagValue_filled (flag value : string) :
  flag <> "" -> Forall (fun x => x <> "") (flagValue flag value).
Proof.
  intros H. unfold flagValue.
  destruct (String.eqb_spec value ""); repeat constructor; assumption.
Qed.

Lemma bareFlag_filled (flag : string) (on : bool) :
  flag <> "" -> Forall (fun x => x <> "") (bareFlag flag on).
Proof. intros H. destruct on; repeat constructor; assumption. Qed.

Lemma flagList_filled (flag : string) (values : list string) :
  flag <> "" -> Forall (fun x => x <> "") (flagList flag values).
Proof.
  intros H. unfold flagList.
  destruct (emptyJoin values) eqn:E; repeat constructor; [assumption|].
  intros N. rewrite <- (concat_empty "" "," values) in E.
  now rewrite N in E.
Qed.

Lemma runText_filled (p : string) (arguments : list string) :
  runText p arguments <> "".
Proof. discriminate. Qed.

(** X22.  [TaskMake] hands over no empty argument: when the sub-command
    is not empty and the task name that goes after /TN is not empty, no
    element of the vector is the empty string (a field that is empty
    leaves no trace, and the run text is never empty). *)
Theorem TaskMake_no_empty_element (w : World) (task : SchTask)
        (taskcreate : TaskCreate) (command : string) (own : bool) :
  resolves w taskcreate ->
  command <> "" ->
  ownName task (Taskname taskcreate) own <> "" ->
  exists v,
    outcome (TaskMake w task taskcreate command own) = Returns v /\
    forall x, In x v -> x <> "".
Proof.
  intros H Hc Hn. rewrite TaskMake_resolved by exact H. cbv zeta.
  eexists. split; [reflexivity|].
  apply Forall_forall.
  unfold layout, options, beforeDays, afterMonths, markDeleteFlags.
  repeat (apply Forall_app; split);
    try (apply flagValue_filled; discriminate);
    try (apply bareFlag_filled; discriminate);
    try (apply flagList_filled; discriminate).
  - constructor; [exact Hc|].
    repeat (apply Forall_app; split);
      apply flagValue_filled; discriminate.
  - repeat constructor; try discriminate; try exact Hn.
  - destruct (MarkDelete taskcreate); repeat constructor; discriminate.
Qed.

Lemma TaskMake_no_empty_element_witness :
  exists v,
    outcome (TaskMake calmWorld (New true) emptyTask "/CHANGE" true)
    = Returns v /\
    forall x, In x v -> x <> "".
Proof.
  apply (TaskMake_no_empty_element calmWorld (New true) emptyTask
           "/CHANGE" true).
  - right. reflexivity.
  - discriminate.
  - discriminate.
Defined.

(** ** The earlier revision *)

Lemma Earlier_queryLine_closed (w : World) (task : Earlier.SchTask)
      (own : bool) (nm : string) (taskList : list Task) (text : string) :
  Earlier.queryLine w task own (nm, taskList) text =
  let tx := unquote text in
  let nm' := if own then Earlier.prefix task ++ nm else nm in
  if passes w nm' tx then
    if threeFields tx then ret (nm', (taskList ++ [record tx])%list)
    else panic
  else ret (nm', taskList).
Proof.
  unfold Earlier.queryLine, passes, threeFields, record, field, unquote.
  cbv zeta.
  set (tx := strings.RemoveAll text "034").
  set (nm' := if own then Earlier.prefix task ++ nm else nm).
  destruct (Split_cons tx ",") as [f0 [fs E]]. rewrite E.
  cbn [index nth_error bind ret nth app].
  destruct (String.eqb nm' "*" || String.eqb nm' "" ||
            strings.Contains (strings_ToLower w (strings.TrimSpace f0))
                             (strings_ToLower w nm')); [|reflexivity].
  destruct fs as [|f1 [|f2 fs]]; reflexivity.
Qed.

Lemma grown_shift (pre nm : string) (k : nat) :
  grown pre nm (S k) = grown pre (pre ++ nm) k.
Proof.
  induction k as [|k IH]; [reflexivity|].
  change (grown pre nm (S (S k))) with (pre ++ grown pre nm (S k)).
  now rewrite IH.
Qed.

Lemma passing_ext (w : World) (f g : nat -> string) (k : nat)
      (l : list string) :
  (forall j, f j = g j) -> passing w f k l = passing w g k l.
Proof.
  intros H. revert k. induction l as [|tx l IH]; intros k; [reflexivity|].
  cbn [passing]. now rewrite H, !IH.
Qed.

Lemma passing_shift (w : World) (f : nat -> string) (k : nat)
      (l : list string) :
  passing w f (S k) l = passing w (fun j => f (S j)) k l.
Proof.
  revert k. induction l as [|tx l IH]; intros k; [reflexivity|].
  cbn [passing]. now rewrite !IH.
Qed.

Lemma passing_grown (w : World) (pre nm : string) (l : list string) :
  passing w (grown pre nm) 1 l = passing w (grown pre (pre ++ nm)) 0 l.
Proof.
  rewrite passing_shift. apply passing_ext. intros j. apply grown_shift.
Qed.

Lemma Earlier_queryLoop_own (w : World) (task : Earlier.SchTask)
      (texts : list string) (nm : string) (taskList : list Task) :
  let reached :=
    passing w (grown (Earlier.prefix task) nm) 0 (map unquote texts) in
  Earlier.queryLoop w task true (nm, taskList) texts =
  if forallb threeFields reached
  then ret (Nat.iter (List.length texts)
                     (String.append (Earlier.prefix task)) nm,
            (taskList ++ map record reached)%list)
  else panic.
Proof.
  revert nm taskList. induction texts as [|text rest IH]; intros nm taskList.
  - cbn. now rewrite app_nil_r.
  - cbv zeta. cbn [Earlier.queryLoop map passing grown].
    rewrite Earlier_queryLine_closed. cbv zeta.
    rewrite passing_grown.
    change (Nat.iter (List.length (text :: rest))
                     (String.append (Earlier.prefix task)) nm)
      with (Nat.iter (S (List.length rest))
                     (String.append (Earlier.prefix task)) nm).
    rewrite Nat.iter_succ_r.
    destruct (passes w (Earlier.prefix task ++ nm) (unquote text)).
    + cbn [forallb map]. destruct (threeFields (unquote text)).
      * cbn [bind ret andb]. rewrite IH. cbv zeta.
        destruct (forallb threeFields _); [|reflexivity].
        cbn [app]. now rewrite <- app_assoc.
      * reflexivity.
    + cbn [bind ret]. rewrite IH. cbv zeta.
      destruct (forallb threeFields _); reflexivity.
Qed.

(** X23.  In the earlier revision, [Query] with own puts the prefix before
    the name again at every line it scans: line number k, counted from 0,
    is compared with the name preceded by k + 1 copies of the prefix.  When
    the invocation succeeds and the lines that pass have three fields, the
    records returned are those of exactly these lines. *)
Theorem Earlier_Query_own_drifts (w : World) (task : Earlier.SchTask)
        (taskname output : string) :
  CombinedOutput w (Earlier.bin task) ["/QUERY"; "/FO"; "CSV"; "/NH"]
  = (output, None) ->
  let reached :=
    passing w (grown (Earlier.prefix task) taskname) 0
            (map unquote (bufio.ScanLines output)) in
  (forall tx, In tx reached -> 3 <= List.length (strings.Split tx ",")) ->
  outcome (Earlier.Query w task taskname true) = Returns (map record reached).
Proof.
  intros E reached H. unfold Earlier.Query. cbv zeta.
  unfold exec, Earlier._Query.command, Earlier._Query.format,
    Earlier._Query.formatCSV, Earlier._Query.noHeader.
  cbn [bind]. rewrite E. cbn [catch bind ret app].
  rewrite Earlier_queryLoop_own. cbv zeta. fold reached.
  now rewrite (forallb_threeFields reached H).
Qed.

Lemma Earlier_Query_own_drifts_witness :
  outcome
    (Earlier.Query
       (answering ("go-wintask-x,N/A,Ready" ++ lf ++
                   "go-wintask-x,N/A,Ready" ++ lf ++
                   "go-wintask-go-wintask-x,N/A,Ready" ++ lf))
       Earlier.New "x" true) =
  Returns [ {| name := "go-wintask-x"; datetime := "N/A";
               status := "Ready" |} ].
Proof.
  apply (Earlier_Query_own_drifts
           (answering ("go-wintask-x,N/A,Ready" ++ lf ++
                       "go-wintask-x,N/A,Ready" ++ lf ++
                       "go-wintask-go-wintask-x,N/A,Ready" ++ lf))
           Earlier.New "x"
           ("go-wintask-x,N/A,Ready" ++ lf ++
            "go-wintask-x,N/A,Ready" ++ lf ++
            "go-wintask-go-wintask-x,N/A,Ready" ++ lf)).
  - reflexivity.
  - cbn. intros tx [H|[]]; subst tx; cbn; lia.
Defined.

Lemma Earlier_queryLoop_plain (w : World) (task : Earlier.SchTask)
      (texts : list string) (nm : string) (taskList : list Task) :
  Earlier.queryLoop w task false (nm, taskList) texts =
  (tasks <- queryLoop w (present task) nm taskList texts ;; ret (nm, tasks)).
Proof.
  revert taskList. induction texts as [|text rest IH]; intros taskList.
  - reflexivity.
  - cbn [Earlier.queryLoop queryLoop].
    rewrite Earlier_queryLine_closed, queryLine_closed. cbv zeta.
    change (isHeader (present task) (unquote text)) with false. cbv iota.
    destruct (passes w nm (unquote text)).
    + destruct (threeFields (unquote text)); [|reflexivity].
      cbn [bind ret]. rewrite IH.
      now destruct (queryLoop w (present task) nm _ rest) as [t [a|m|]].
    + cbn [bind ret]. rewrite IH.
      now destruct (queryLoop w (present task) nm _ rest) as [t [a|m|]].
Qed.

(** X24.  Without own, the earlier [Query] and the present [Query] outside
    compatibility mode are the same operation: on every host, for every
    name, they run the binary with the same vector and end in the same way
    with the same records. *)
Theorem Earlier_Query_plain_agrees (w : World) (task : Earlier.SchTask)
        (taskname : string) :
  Earlier.Query w task taskname false = Query w (present task) taskname false.
Proof.
  unfold Earlier.Query, Query. cbv zeta.
  cbn [present compatibility bin queryName].
  unfold exec, Earlier._Query.command, Earlier._Query.format,
    Earlier._Query.formatCSV, Earlier._Query.noHeader,
    _Query.Command, _Query.format, _Query.formatCSV, _Query.noHeader.
  cbn [bind].
  destruct (CombinedOutput w (Earlier.bin task)
                           ["/QUERY"; "/FO"; "CSV"; "/NH"])
    as [output [e|]]; [reflexivity|].
  cbn [catch bind ret app]. rewrite Earlier_queryLoop_plain.
  fold (present task).
  destruct (queryLoop w (present task) taskname []
                      (bufio.ScanLines output)) as [t [a|m|]];
    cbn [bind ret]; rewrite ?app_nil_r; reflexivity.
Qed.
